(** * The section allocator of the podcast script generator (config.py)

    A shallow embedding of the logic-bearing part of [config.py]: the
    module-level normalisation of [PODCAST_DURATION_MINUTES], the table
    [BASE_SECTION_WEIGHTS] and the function [calculate_section_allocation].

    Python values are modelled as the interpreter has them:
    - [int] is an unbounded integer, here [Z];
    - [float] is an IEEE 754 binary64 number, here [spec_float] with
      precision 53 and [emax] 1024, rounded to nearest, ties to even;
    - a [dict] with string keys is a [gmap string _];
    - an exception ends the evaluation with the exception's class.

    The second half of the definitions covers the rest of the module
    body that decides something: the dictionary [PODCAST_CONFIG], the
    boolean flags read from the environment, and the selection of
    [EPISODE_TOPICS] and [TOPIC_KEYWORDS]; there a [str] is a [string]
    of ASCII characters and a [dict] whose order matters is an
    association list. *)

From Stdlib Require Import ZArith Lia Bool Ascii String Floats QArith Qabs Qround.
From stdpp Require Import base option list gmap strings pretty.

Local Open Scope Z_scope.

(** ** Python numbers *)

Module Py.

(** The exception classes the modelled code can raise. *)
Inductive exn :=
| KeyError (key : string)
| OverflowError
| ValueError
| ZeroDivisionError.

(** Either an exception or a value. *)
Definition result (A : Type) : Type := exn + A.

Definition prec : Z := 53.
Definition emax : Z := 1024.

(** A Python [float]. *)
Definition float : Type := spec_float.

(** [float(n)] for an [int] n, as every mixed int/float operator applies
    it to its [int] operand: correctly rounded, ties to even, and
    OverflowError ("int too large to convert to float") when the rounded
    value is beyond the largest finite double. *)
Definition float_of_int (n : Z) : result float :=
  match binary_normalize prec emax n 0 false with
  | S754_infinity _ => inl OverflowError
  | x => inr x
  end.

(** [x * y] on floats never raises: it rounds, possibly to an infinity. *)
Definition float_mul (x y : float) : float := SFmul prec emax x y.

(** [x / y] on floats raises ZeroDivisionError on a zero divisor. *)
Definition float_div (x y : float) : result float :=
  match y with
  | S754_zero _ => inl ZeroDivisionError
  | _ => inr (SFdiv prec emax x y)
  end.

(** [n * x] with [n] an int and [x] a float. *)
Definition int_mul_float (n : Z) (x : float) : result float :=
  match float_of_int n with
  | inl e => inl e
  | inr a => inr (float_mul a x)
  end.

(** [x / n] with [x] a float and [n] an int. *)
Definition float_div_int (x : float) (n : Z) : result float :=
  match float_of_int n with
  | inl e => inl e
  | inr b => float_div x b
  end.

(** [int(x)] for a float: truncation toward zero; OverflowError on an
    infinity and ValueError on a NaN. *)
Definition int_of_float (x : float) : result Z :=
  match x with
  | S754_zero _ => inr 0
  | S754_finite s m e => inr (cond_Zopp s (Z.shiftl (Zpos m) e))
  | S754_infinity _ => inl OverflowError
  | S754_nan => inl ValueError
  end.

(** The float literals of [BASE_SECTION_WEIGHTS]: the double nearest to
    the decimal, as mantissa and binary exponent. *)
Definition lit_0_05 : float := S754_finite false 7205759403792794 (-57).
Definition lit_0_65 : float := S754_finite false 5854679515581645 (-53).
Definition lit_0_15 : float := S754_finite false 5404319552844595 (-55).
Definition lit_0_08 : float := S754_finite false 5764607523034235 (-56).
Definition lit_0_10 : float := S754_finite false 7205759403792794 (-56).
Definition lit_0_07 : float := S754_finite false 5044031582654956 (-56).

End Py.

(** ** Module-level normalisation of the duration (config.py, lines 26-39) *)

(** [d not in [15, 30, 45]]. *)
Definition not_in_tiers (d : Z) : bool :=
  negb ((d =? 15) || (d =? 30) || (d =? 45)).

(** The value [PODCAST_DURATION_MINUTES] holds after the if/elif chain, as
    a function of the integer read from the environment. *)
Definition normalize_duration (d : Z) : Z :=
  if d <? 15 then 15
  else if d >? 45 then 45
  else if not_in_tiers d then
    (if d <? 22 then 15
     else if d <? 37 then 30
     else 45)
  else d.

(** The rule as the specification words it (for comparison with
    [normalize_duration]). *)
Definition normalize_duration_spec (d : Z) : Z :=
  if Z_lt_dec d 15 then 15
  else if Z_lt_dec 45 d then 45
  else if decide (d ∈ [15; 30; 45]) then d
  else if Z_lt_dec d 22 then 15
  else if Z_lt_dec d 37 then 30
  else 45.

(** ** Module state and evaluation *)

(** The values stored in a section record. *)
Inductive value :=
| VInt (n : Z)
| VFloat (x : Py.float)
| VBool (b : bool).

(** The module's global variables the modelled code assigns or reads.
    Both are ordinary, mutable Python globals. *)
Record Globals := {
  PODCAST_DURATION_MINUTES : Z;
  BASE_SECTION_WEIGHTS : gmap string Py.float
}.

(** A computation reads and may write the globals, and either raises or
    returns. *)
Definition M (A : Type) : Type := Globals → Py.result A * Globals.

Definition ret {A} (a : A) : M A := λ g, (inr a, g).

Definition bind {A B} (m : M A) (f : A → M B) : M B :=
  λ g, match m g with
       | (inl e, g') => (inl e, g')
       | (inr a, g') => f a g'
       end.

Notation "x <- m ;; k" := (bind m (λ x, k))
  (at level 100, m at next level, right associativity).

(** A pure operation that may raise. *)
Definition lift {A} (r : Py.result A) : M A := λ g, (r, g).

(** [BASE_SECTION_WEIGHTS[key]]: a read of the global table, KeyError when
    the key is absent. *)
Definition weight (key : string) : M Py.float :=
  λ g, match BASE_SECTION_WEIGHTS g !! key with
       | Some w => (inr w, g)
       | None => (inl (Py.KeyError key), g)
       end.

(** [BASE_SECTION_WEIGHTS = {...}] (config.py, lines 42-51). *)
Definition base_section_weights : gmap string Py.float :=
  {[ "intro" := Py.lit_0_05;
     "main_stories" := Py.lit_0_65;
     "tech_spotlight" := Py.lit_0_15;
     "listener_questions" := Py.lit_0_08;
     "deep_dive" := Py.lit_0_10;
     "expert_interview" := Py.lit_0_10;
     "outro" := Py.lit_0_05;
     "transitions" := Py.lit_0_07 ]}.

(** The globals once the module body has run, [env_duration] being the
    integer parsed from the environment variable. *)
Definition module_globals (env_duration : Z) : Globals :=
  {| PODCAST_DURATION_MINUTES := normalize_duration env_duration;
     BASE_SECTION_WEIGHTS := base_section_weights |}.

(** ** calculate_section_allocation (config.py, lines 54-133) *)

(** [range(a, b)]. *)
Definition range (a b : Z) : list Z := seqZ a (b - a).

(** [f"main_story_{i}"]. *)
Definition main_story_key (i : Z) : string := "main_story_" +:+ pretty i.

(** The expression [int(n * BASE_SECTION_WEIGHTS[key])], which the
    function repeats for every fixed section. *)
Definition scaled (n : Z) (key : string) : M Z :=
  w <- weight key ;;
  p <- lift (Py.int_mul_float n w) ;;
  lift (Py.int_of_float p).

(** The returned dictionary: section key to section record. *)
Abbreviation plan := (gmap string (gmap string value)).

Definition calculate_section_allocation (duration_minutes : Z) : M plan :=
  let total_seconds := duration_minutes * 60 in
  let words_per_minute := 150 in
  let target_word_count := duration_minutes * words_per_minute in
  let num_main_stories :=
    if duration_minutes =? 15 then 2
    else if duration_minutes =? 30 then 3
    else 4 in
  intro_d <- scaled total_seconds "intro" ;;
  intro_w <- weight "intro" ;;
  intro_c <- scaled target_word_count "intro" ;;
  outro_d <- scaled total_seconds "outro" ;;
  outro_w <- weight "outro" ;;
  outro_c <- scaled target_word_count "outro" ;;
  spot_d <- scaled total_seconds "tech_spotlight" ;;
  spot_w <- weight "tech_spotlight" ;;
  spot_c <- scaled target_word_count "tech_spotlight" ;;
  lq_d <- scaled total_seconds "listener_questions" ;;
  lq_w <- weight "listener_questions" ;;
  lq_c <- scaled target_word_count "listener_questions" ;;
  trans_d <- scaled total_seconds "transitions" ;;
  trans_w <- weight "transitions" ;;
  let sections : plan :=
    {[ "intro" :=
         {[ "duration_seconds" := VInt intro_d;
            "weight" := VFloat intro_w;
            "word_count_target" := VInt intro_c ]};
       "outro" :=
         {[ "duration_seconds" := VInt outro_d;
            "weight" := VFloat outro_w;
            "word_count_target" := VInt outro_c ]};
       "tech_spotlight" :=
         {[ "duration_seconds" := VInt spot_d;
            "weight" := VFloat spot_w;
            "word_count_target" := VInt spot_c ]};
       "listener_questions" :=
         {[ "duration_seconds" := VInt lq_d;
            "weight" := VFloat lq_w;
            "word_count_target" := VInt lq_c;
            "enabled" := VBool true ]};
       "transitions" :=
         {[ "duration_seconds" := VInt trans_d;
            "weight" := VFloat trans_w ]} ]} in
  main_stories_w <- weight "main_stories" ;;
  main_story_weight <- lift (Py.float_div_int main_stories_w num_main_stories) ;;
  main_story_p <- lift (Py.int_mul_float total_seconds main_story_weight) ;;
  main_story_duration <- lift (Py.int_of_float main_story_p) ;;
  main_story_q <- lift (Py.int_mul_float target_word_count main_story_weight) ;;
  main_story_word_count <- lift (Py.int_of_float main_story_q) ;;
  let sections :=
    foldl (λ sections i,
             <[ main_story_key i :=
                  {[ "duration_seconds" := VInt main_story_duration;
                     "weight" := VFloat main_story_weight;
                     "word_count_target" := VInt main_story_word_count ]} ]>
               sections)
          sections (range 1 (num_main_stories + 1)) in
  dive_d <- scaled total_seconds "deep_dive" ;;
  dive_w <- weight "deep_dive" ;;
  dive_c <- scaled target_word_count "deep_dive" ;;
  let sections :=
    <[ "deep_dive" :=
         {[ "duration_seconds" := VInt dive_d;
            "weight" := VFloat dive_w;
            "word_count_target" := VInt dive_c;
            "enabled" := VBool false ]} ]> sections in
  expert_d <- scaled total_seconds "expert_interview" ;;
  expert_w <- weight "expert_interview" ;;
  expert_c <- scaled target_word_count "expert_interview" ;;
  let sections :=
    <[ "expert_interview" :=
         {[ "duration_seconds" := VInt expert_d;
            "weight" := VFloat expert_w;
            "word_count_target" := VInt expert_c;
            "enabled" := VBool false ]} ]> sections in
  ret sections.

(** A client that calls the function once per element of [ds], in order,
    catching whatever a call raises. *)
Fixpoint run_calls (ds : list Z) (g : Globals)
  : list (Py.result plan) * Globals :=
  match ds with
  | [] => ([], g)
  | d :: ds' =>
      let '(r, g1) := calculate_section_allocation d g in
      let '(rs, g2) := run_calls ds' g1 in
      (r :: rs, g2)
  end.

(** The ["num_main_stories"] entry of [PODCAST_CONFIG] (config.py, line
    141): the same three-way choice as inside the function. *)
Definition config_num_main_stories (d : Z) : Z :=
  if d =? 15 then 2 else if d =? 30 then 3 else 4.

(** ** Strings

    A Python [str] is modelled by [string], a sequence of 8-bit
    characters. The methods below are Python's on ASCII text
    ([str.lower], [str.strip], [str.split] with a one-character
    separator, truth of a string); outside ASCII Python works on code
    points and the model does not follow it, so the theorems about the
    environment assume ASCII values. *)

Module PyStr.

(** [c.isspace()]: tab, line feed, vertical tab, form feed, carriage
    return, the four separators 0x1c-0x1f and the space. *)
Definition isspace (c : ascii) : bool :=
  let n := N_of_ascii c in
  ((9 <=? n) && (n <=? 13) || (28 <=? n) && (n <=? 32))%N.

Definition isupper (c : ascii) : bool :=
  let n := N_of_ascii c in ((65 <=? n) && (n <=? 90))%N.

Definition lower_char (c : ascii) : ascii :=
  if isupper c then ascii_of_N (N_of_ascii c + 32) else c.

(** [s.lower()]. *)
Fixpoint lower (s : string) : string :=
  match s with
  | EmptyString => EmptyString
  | String c s' => String (lower_char c) (lower s')
  end.

(** [s.lstrip()]. *)
Fixpoint lstrip (s : string) : string :=
  match s with
  | EmptyString => EmptyString
  | String c s' => if isspace c then lstrip s' else s
  end.

(** [s.rstrip()]. *)
Fixpoint rstrip (s : string) : string :=
  match s with
  | EmptyString => EmptyString
  | String c s' =>
      match rstrip s' with
      | EmptyString => if isspace c then EmptyString else String c EmptyString
      | t => String c t
      end
  end.

(** [s.strip()]. *)
Definition strip (s : string) : string := rstrip (lstrip s).

(** [s.split(sep)] for a separator of one character: one piece more than
    there are separators, empty pieces included. *)
Fixpoint split (sep : ascii) (s : string) : list string :=
  match s with
  | EmptyString => [EmptyString]
  | String c s' =>
      if Ascii.eqb c sep then EmptyString :: split sep s'
      else match split sep s' with
           | t :: ts => String c t :: ts
           | [] => [String c EmptyString]
           end
  end.

(** The truth value of a string: non-empty. *)
Definition truthy (s : string) : bool :=
  match s with EmptyString => false | String _ _ => true end.

(** [s.isascii()]. *)
Fixpoint isascii (s : string) : bool :=
  match s with
  | EmptyString => true
  | String c s' => (N_of_ascii c <? 128)%N && isascii s'
  end.

End PyStr.

(** ** The environment and what the module body reads from it *)

(** [os.environ]. *)
Definition Env : Type := gmap string string.

(** [os.getenv(name, dflt)]. *)
Definition getenv (env : Env) (name dflt : string) : string :=
  default dflt (env !! name).

(** [os.getenv(name, "false").lower() == "true"] (config.py, lines 143,
    144, 319 and 369). *)
Definition env_flag (env : Env) (name : string) : bool :=
  bool_decide (PyStr.lower (getenv env name "false") = "true").

(** ** TOPIC_KEYWORDS and EPISODE_TOPICS (config.py, lines 245-275) *)

(** [TOPIC_KEYWORDS = {...}] as written (lines 245-261), in insertion
    order. *)
Definition topic_keywords : list (string * list string) :=
  [ ("ai",
     [ "artificial intelligence"; "machine learning"; "deep learning";
       "neural network"; "GPT"; "LLM"; "ChatGPT"; "AI model"; "AGI";
       "computer vision"; "NLP"; "natural language processing" ]);
    ("big_data",
     [ "big data"; "data analytics"; "data science"; "data warehouse";
       "data lake"; "ETL"; "data pipeline"; "data engineering";
       "Apache Spark"; "Hadoop"; "data processing" ]);
    ("tech_futures",
     [ "quantum computing"; "blockchain"; "Web3"; "metaverse";
       "IoT"; "edge computing"; "5G"; "6G"; "autonomous vehicles";
       "robotics"; "biotechnology"; "nanotechnology"; "future tech" ]) ].

(** The two globals once lines 265-275 have run. *)
Record Topics := {
  EPISODE_TOPICS : list string;
  TOPIC_KEYWORDS : list (string * list string)
}.

(** [[topic.strip() for topic in s.split(",") if topic.strip()]]. *)
Definition parse_topics (s : string) : list string :=
  PyStr.split "," s ≫= λ topic,
    if PyStr.truthy (PyStr.strip topic) then [PyStr.strip topic] else [].

(** Lines 265-275, [value] being the value of the environment variable
    EPISODE_TOPICS, the empty string when it is unset, and [table] the
    dictionary [TOPIC_KEYWORDS] at that point. *)
Definition select_topics (value : string) (table : list (string * list string))
  : Topics :=
  let lowered := PyStr.lower value in
  if PyStr.truthy lowered then
    let topics := parse_topics lowered in
    match topics with
    | _ :: _ =>
        let filtered_keywords := filter (λ kv, kv.1 ∈ topics) table in
        match filtered_keywords with
        | _ :: _ => {| EPISODE_TOPICS := topics;
                       TOPIC_KEYWORDS := filtered_keywords |}
        | [] => {| EPISODE_TOPICS := topics; TOPIC_KEYWORDS := table |}
        end
    | [] => {| EPISODE_TOPICS := topics; TOPIC_KEYWORDS := table |}
    end
  else {| EPISODE_TOPICS := table.*1; TOPIC_KEYWORDS := table |}.

Definition load_topics (env : Env) : Topics :=
  select_topics (getenv env "EPISODE_TOPICS" EmptyString) topic_keywords.

(** ** PODCAST_CONFIG (config.py, lines 136-146 and 278) *)

(** The dictionary, one field per key; [episode_topics] is the key line
    278 adds. *)
Record PodcastConfig := {
  title : string;
  duration_minutes : Z;
  target_word_count : Z;
  sections : plan;
  num_main_stories : Z;
  optional_sections : gmap string (gmap string value);
  episode_topics : list string
}.

(** A read of the global [PODCAST_DURATION_MINUTES]. *)
Definition duration : M Z := λ g, (inr (PODCAST_DURATION_MINUTES g), g).

(** The dictionary display of lines 136-146, evaluated in the module's
    globals: the global is read before the call and again after it. *)
Definition podcast_config (env : Env) : M PodcastConfig :=
  d <- duration ;;
  allocation <- calculate_section_allocation d ;;
  d' <- duration ;;
  ret {| title := "Decoded: AI, Big Data, and Tech Futures";
         duration_minutes := d;
         target_word_count := d * 150;
         sections := allocation;
         num_main_stories := config_num_main_stories d';
         optional_sections :=
           {[ "deep_dive" :=
                {[ "enabled" := VBool (env_flag env "ENABLE_DEEP_DIVE") ]};
              "expert_interview" :=
                {[ "enabled" :=
                     VBool (env_flag env "ENABLE_EXPERT_INTERVIEW") ]} ]};
         episode_topics := EPISODE_TOPICS (load_topics env) |}.

(** [SCRIPT_GENERATION["target_word_count"]] (config.py, line 316). *)
Definition script_generation_target_word_count : Z := 4800.

(** ** Observations on results and plans *)

Definition is_ok {A} (r : Py.result A) : bool :=
  match r with inr _ => true | inl _ => false end.

Definition get_plan (r : Py.result plan) : plan :=
  match r with inr p => p | inl _ => ∅ end.

(** [p[s][f]], when both keys are present. *)
Definition field (p : plan) (s f : string) : option value :=
  p !! s ≫= (.!! f).

(** The section keys that name a main-story slot. *)
Definition main_story_keys (p : plan) : gset string :=
  filter (λ k, String.prefix "main_story_" k = true) (dom p).

(** [main_story_1 .. main_story_n]. *)
Definition main_story_key_set (n : Z) : gset string :=
  list_to_set (main_story_key <$> seqZ 1 n).

Definition fixed_section_keys : gset string :=
  {[ "intro"; "outro"; "tech_spotlight"; "listener_questions";
     "transitions"; "deep_dive"; "expert_interview" ]}.

Definition duration_seconds_of (sec : gmap string value) : Z :=
  match sec !! "duration_seconds" with
  | Some (VInt n) => n
  | _ => 0
  end.

(** The sum of [duration_seconds] over every section of a plan. *)
Definition total_duration (p : plan) : Z :=
  map_fold (λ _ sec acc, acc + duration_seconds_of sec) 0 p.

(** The weights as the decimals written in the source, for stating
    budgets in exact arithmetic. [main_stories] is left out: its share is
    split over the slots. *)
Definition decimal_weights : list (string * Q) :=
  [ ("intro", 0.05%Q); ("outro", 0.05%Q); ("tech_spotlight", 0.15%Q);
    ("listener_questions", 0.08%Q); ("transitions", 0.07%Q);
    ("deep_dive", 0.10%Q); ("expert_interview", 0.10%Q) ].

(** The rational a finite float denotes (0 for the others). *)
Definition float_to_Q (x : Py.float) : Q :=
  match x with
  | S754_finite s m e =>
      let v := if 0 <=? e
               then inject_Z (Z.pos m * 2 ^ e)
               else Z.pos m # Z.to_pos (2 ^ (- e)) in
      if s then Qopp v else v
  | _ => 0%Q
  end.

(** The least magnitude [float(n)] cannot convert: halfway between the
    largest finite double, 2^1024 - 2^971, and 2^1024; the tie rounds to
    the even mantissa, that is up and out of range. *)
Definition float_overflow_threshold : Z := 2 ^ 1024 - 2 ^ 970.

(** A float that is a zero or a finite double: at most 53 mantissa bits
    and an exponent within the format. *)
Definition finite_double (x : Py.float) : Prop :=
  match x with
  | S754_zero _ => True
  | S754_finite _ m e => Z.pos (digits2_pos m) <= 53 ∧ e <= 971
  | _ => False
  end.

(** A finite float below 1/2 in magnitude, as every section weight and
    every per-story weight is. *)
Definition small_weight (w : Py.float) : Prop :=
  match w with
  | S754_finite _ m e => Z.pos (digits2_pos m) <= 53 ∧ e <= -54
  | _ => False
  end.

(** A computation that leaves the globals as they are and whose result
    depends on them only through [BASE_SECTION_WEIGHTS]. *)
Definition reads_only_weights {A} (m : M A) : Prop :=
  ∃ f : gmap string Py.float → Py.result A,
    ∀ g, m g = (f (BASE_SECTION_WEIGHTS g), g).

(** The characters of a string. *)
Definition chars : string → list ascii := list_ascii_of_string.

(** A topic as the parser leaves it: not empty, no whitespace at either
    end, no upper-case letter, no comma, and ASCII. *)
Definition clean_topic (t : string) : Prop :=
  t ≠ EmptyString ∧ PyStr.strip t = t ∧ PyStr.lower t = t
  ∧ (","%char ∉ chars t) ∧ PyStr.isascii t = true.

(** A character that separates topics or is stripped from them. *)
Definition separator (c : ascii) : Prop :=
  PyStr.isspace c = true ∨ c = ","%char.

(** A string that does not begin with whitespace. *)
Definition no_leading_space (s : string) : Prop :=
  match s with
  | EmptyString => True
  | String c _ => PyStr.isspace c = false
  end.

Definition word_count_target_of (sec : gmap string value) : Z :=
  match sec !! "word_count_target" with
  | Some (VInt n) => n
  | _ => 0
  end.

(** A section record that is not switched off: [enabled] is absent or
    true. *)
Definition enabled_by_default (sec : gmap string value) : bool :=
  match sec !! "enabled" with
  | Some (VBool false) => false
  | _ => true
  end.

(** The sums of [duration_seconds] and of [word_count_target] over the
    sections of a plan that are not switched off. *)
Definition default_duration (p : plan) : Z :=
  map_fold (λ _ sec acc,
              if enabled_by_default sec then acc + duration_seconds_of sec
              else acc)
    0 p.

Definition default_word_count (p : plan) : Z :=
  map_fold (λ _ sec acc,
              if enabled_by_default sec then acc + word_count_target_of sec
              else acc)
    0 p.

(** The keys of [BASE_SECTION_WEIGHTS] the function subscripts. *)
Definition table_keys : list string :=
  [ "intro"; "outro"; "tech_spotlight"; "listener_questions"; "transitions";
    "main_stories"; "deep_dive"; "expert_interview" ].

(** The exceptions a call can end with: a KeyError for a key of
    [table_keys] the table lacks, an OverflowError or a ValueError from
    a conversion between int and float; never a ZeroDivisionError. *)
Definition allocation_error (g : Globals) (e : Py.exn) : Prop :=
  match e with
  | Py.KeyError k => k ∈ table_keys ∧ BASE_SECTION_WEIGHTS g !! k = None
  | Py.OverflowError | Py.ValueError => True
  | Py.ZeroDivisionError => False
  end.

(** A finite float above zero. *)
Definition positive_weight (w : Py.float) : Prop :=
  match w with S754_finite false _ _ => True | _ => False end.

(** [int(n * w)] is the floor of [n] times the decimal [q]. *)
Definition exact_budget (n : Z) (w : Py.float) (q : Q) : bool :=
  match Py.int_mul_float n w with
  | inr x =>
      match Py.int_of_float x with
      | inr z => z =? Qfloor (inject_Z n * q)
      | inl _ => false
      end
  | inl _ => false
  end.

(** The weights the function multiplies by, as doubles, each with the
    decimal it stands for: the literals of the table and the per-story
    shares 0.65/2, 0.65/3 and 0.65/4. *)
Definition float_weights : list (Py.float * Q) :=
  [ (Py.lit_0_05, 0.05%Q); (Py.lit_0_15, 0.15%Q); (Py.lit_0_08, 0.08%Q);
    (Py.lit_0_07, 0.07%Q); (Py.lit_0_10, 0.10%Q);
    (S754_finite false 5854679515581645 (-54), (0.65 / inject_Z 2)%Q);
    (S754_finite false 7806239354108860 (-55), (0.65 / inject_Z 3)%Q);
    (S754_finite false 5854679515581645 (-55), (0.65 / inject_Z 4)%Q) ].

(** Every budget of every duration from 0 to [bound] minutes is exact. *)
Definition exact_budgets_upto (bound : Z) : bool :=
  forallb (λ d, forallb (λ '(w, q), exact_budget (d * 60) w q
                                    && exact_budget (d * 150) w q)
                  float_weights)
    (seqZ 0 (bound + 1)).

(** The durations of the plan for [d] minutes add up to more than the
    [d * 60] seconds of the episode and to at most 1.25 times that. *)
Definition total_overruns (d : Z) : bool :=
  let total :=
    total_duration
      (get_plan (fst (calculate_section_allocation d (module_globals 0)))) in
  (d * 60 <? total) && (4 * total <=? 5 * (d * 60)).

Definition totals_overrun_upto (bound : Z) : bool :=
  forallb total_overruns (seqZ 1 bound).

(** ** Tactics *)

(** Closes a goal about the plan of a concrete call by evaluation: an
    equation between small values directly, any other decidable goal
    through its decision procedure. *)
Ltac by_evaluation :=
  first [ apply (bool_decide_unpack _); vm_compute; exact I
        | apply Qle_bool_iff; vm_compute; reflexivity
        | vm_compute; reflexivity ].

(** Splits a conjunction into its conjuncts, and nothing else. *)
Ltac split_conj := repeat match goal with |- _ ∧ _ => split end.

(** Writes out a concrete [seqZ]. *)
Ltac unfold_seqZ :=
  repeat match goal with
         | |- context [seqZ ?a ?n] =>
             let l := eval vm_compute in (seqZ a n) in
             change (seqZ a n) with l
         end.

(** * Properties *)

(** ** The float literals *)

(** The mantissa/exponent pairs above are the doubles the decimal
    literals denote. *)
#[warnings="-inexact-float"]
Lemma literals_are_doubles :
  Prim2SF 0.05%float = Py.lit_0_05 ∧ Prim2SF 0.65%float = Py.lit_0_65 ∧
  Prim2SF 0.15%float = Py.lit_0_15 ∧ Prim2SF 0.08%float = Py.lit_0_08 ∧
  Prim2SF 0.10%float = Py.lit_0_10 ∧ Prim2SF 0.07%float = Py.lit_0_07.
Proof. split_conj; vm_compute; reflexivity. Qed.

(** Each literal is within half a unit in the last place of its decimal. *)
Lemma literals_are_nearest :
  Forall (λ '(x, q, e), (Qabs (float_to_Q x - q) <= 1 # Z.to_pos (2 ^ e))%Q)
    [ (Py.lit_0_05, 0.05%Q, 58); (Py.lit_0_65, 0.65%Q, 54);
      (Py.lit_0_15, 0.15%Q, 56); (Py.lit_0_08, 0.08%Q, 57);
      (Py.lit_0_10, 0.10%Q, 57); (Py.lit_0_07, 0.07%Q, 57) ].
Proof. repeat apply Forall_cons_2; try apply Forall_nil_2; by_evaluation. Qed.

(** ** Normalisation *)

Lemma elem_of_tiers (d : Z) : d ∈ [15; 30; 45] ↔ d = 15 ∨ d = 30 ∨ d = 45.
Proof. rewrite !elem_of_cons, elem_of_nil. tauto. Qed.

(** C1: the duration-normalisation step is the function the
    specification describes (below 15 gives 15, above 45 gives 45, a tier
    is kept, and the rest round at 22 and 37); hence its result is always
    one of 15, 30 and 45, and 5, 21, 22, 36, 37 and 100 go to 15, 15, 30,
    30, 45 and 45. *)
Theorem normalize_duration_correct :
  (∀ d : Z, normalize_duration d = normalize_duration_spec d
            ∧ normalize_duration d ∈ [15; 30; 45])
  ∧ normalize_duration 5 = 15 ∧ normalize_duration 21 = 15
  ∧ normalize_duration 22 = 30 ∧ normalize_duration 36 = 30
  ∧ normalize_duration 37 = 45 ∧ normalize_duration 100 = 45.
Proof.
  split; [ | split_conj; reflexivity ].
  intros d. rewrite elem_of_tiers.
  unfold normalize_duration, normalize_duration_spec, not_in_tiers.
  repeat (match goal with
          | |- context [Z_lt_dec ?a ?b] => destruct (Z_lt_dec a b)
          | |- context [decide (?x ∈ ?l)] =>
              let Hin := fresh "Hin" in
              destruct (decide (x ∈ l)) as [Hin | Hin];
              rewrite elem_of_tiers in Hin
          | |- context [?a <? ?b] => destruct (Z.ltb_spec a b)
          | |- context [?a >? ?b] => destruct (Z.gtb_spec a b)
          | |- context [?a =? ?b] => destruct (Z.eqb_spec a b)
          end; simpl; try lia).
Qed.

(** ** Plans of the three tiers *)

Lemma ok_get_plan (r : Py.result plan) : is_ok r = true → r = inr (get_plan r).
Proof. by destruct r. Qed.

(** C2: at 15, 30 and 45 minutes the plan has exactly 2, 3 and 4
    main-story entries, and their keys are exactly main_story_1 up to
    main_story_N. *)
Theorem main_story_slots_by_tier (env : Z) :
  Forall (λ '(D, keys),
            ∃ p, fst (calculate_section_allocation D (module_globals env)) = inr p
                 ∧ main_story_keys p = list_to_set keys
                 ∧ size (main_story_keys p) = length keys
                 ∧ main_story_keys p = main_story_key_set (Z.of_nat (length keys)))
    [ (15, ["main_story_1"; "main_story_2"]);
      (30, ["main_story_1"; "main_story_2"; "main_story_3"]);
      (45, ["main_story_1"; "main_story_2"; "main_story_3"; "main_story_4"]) ].
Proof.
  repeat apply Forall_cons_2; [ .. | apply Forall_nil_2 ].
  all: eexists; split; [ apply ok_get_plan; by_evaluation | ].
  all: split_conj; by_evaluation.
Qed.

(** C3: at each tier D every fixed-weight section has duration_seconds
    floor(D*60*weight) and word_count_target floor(D*150*weight), the
    weight being the decimal of the table, and every main-story slot has
    the same duration_seconds floor(D*60*(0.65/N)) and word_count_target
    floor(D*150*(0.65/N)); at 30 minutes the intro lasts 90 seconds and
    main_story_1 lasts 390. *)
Theorem section_budgets_by_tier (env : Z) :
  Forall (λ '(D, N),
            ∃ p, fst (calculate_section_allocation D (module_globals env)) = inr p
                 ∧ Forall (λ '(s, w),
                             field p s "duration_seconds"
                             = Some (VInt (Qfloor (inject_Z (D * 60) * w)))
                             ∧ (s ≠ "transitions" →
                                field p s "word_count_target"
                                = Some (VInt (Qfloor (inject_Z (D * 150) * w)))))
                          decimal_weights
                 ∧ Forall (λ i,
                             field p (main_story_key i) "duration_seconds"
                             = Some (VInt (Qfloor (inject_Z (D * 60)
                                                   * (0.65 / inject_Z N))))
                             ∧ field p (main_story_key i) "word_count_target"
                               = Some (VInt (Qfloor (inject_Z (D * 150)
                                                     * (0.65 / inject_Z N)))))
                          (seqZ 1 N))
    [ (15, 2); (30, 3); (45, 4) ]
  ∧ ∃ p, fst (calculate_section_allocation 30 (module_globals env)) = inr p
         ∧ field p "intro" "duration_seconds" = Some (VInt 90)
         ∧ field p "main_story_1" "duration_seconds" = Some (VInt 390).
Proof.
  split.
  - repeat apply Forall_cons_2; [ .. | apply Forall_nil_2 ].
    all: eexists; split; [ apply ok_get_plan; by_evaluation | ].
    all: split; [ unfold decimal_weights | unfold_seqZ ].
    all: repeat apply Forall_cons_2; try apply Forall_nil_2.
    all: split; [ by_evaluation | ].
    all: first [ by_evaluation | intros Hne; first [ by_evaluation | by destruct Hne ] ].
  - eexists; split; [ apply ok_get_plan; by_evaluation | ].
    split; by_evaluation.
Qed.

(** The plan at 30 minutes adds up to 2250 seconds. *)
Lemma total_duration_30 (env : Z) :
  total_duration
    (get_plan (fst (calculate_section_allocation 30 (module_globals env))))
  = 2250.
Proof. by_evaluation. Qed.

(** C4, as stated, fails: the durations of the plan at 30 minutes add up
    to 2250 seconds, which is not below the 1800 seconds of the episode. *)
Lemma total_duration_exceeds_total_seconds :
  ¬ (∀ D p, D ∈ [15; 30; 45] →
            fst (calculate_section_allocation D (module_globals 30)) = inr p →
            total_duration p < D * 60).
Proof.
  intros H.
  assert (Hin : 30 ∈ [15; 30; 45]) by (rewrite elem_of_tiers; lia).
  assert (Hok : is_ok (fst (calculate_section_allocation 30 (module_globals 30)))
                = true) by by_evaluation.
  specialize (H 30 _ Hin (ok_get_plan _ Hok)).
  rewrite total_duration_30 in H. lia.
Qed.

(** C4, amended: at each tier the durations of all sections add up to
    more than total_seconds = D*60 and to at most 1.25 * D*60, the
    weights of the sections adding up to 1.25; the sums are 1124, 2250
    and 3372 seconds, floor truncation taking 1, 0 and 3 seconds off
    1.25 * D*60. *)
Theorem total_duration_by_tier (env : Z) :
  Forall (λ '(D, sum),
            ∃ p, fst (calculate_section_allocation D (module_globals env)) = inr p
                 ∧ total_duration p = sum
                 ∧ D * 60 < sum
                 ∧ sum <= Qfloor (1.25 * inject_Z (D * 60)))
    [ (15, 1124); (30, 2250); (45, 3372) ].
Proof.
  repeat apply Forall_cons_2; [ .. | apply Forall_nil_2 ].
  all: eexists; split; [ apply ok_get_plan; by_evaluation | ].
  all: split_conj; by_evaluation.
Qed.

(** C5: at each tier the weight recorded in every main-story slot, times
    the number of slots, is 0.65: exactly so as a float product, and
    within 2^-53 of the table's 0.65 in exact arithmetic. *)
Theorem main_stories_weight_conserved (env : Z) :
  Forall (λ '(D, N),
            ∃ p w, fst (calculate_section_allocation D (module_globals env)) = inr p
                   ∧ Forall (λ i, field p (main_story_key i) "weight"
                                  = Some (VFloat w)) (seqZ 1 N)
                   ∧ Py.int_mul_float N w = inr Py.lit_0_65
                   ∧ (Qabs (inject_Z N * float_to_Q w - float_to_Q Py.lit_0_65)
                      <= 1 # 2 ^ 53)%Q
                   ∧ (Qabs (inject_Z N * float_to_Q w - 0.65) <= 1 # 2 ^ 53)%Q)
    [ (15, 2); (30, 3); (45, 4) ].
Proof.
  repeat apply Forall_cons_2; [ .. | apply Forall_nil_2 ].
  - exists (get_plan (fst (calculate_section_allocation 15 (module_globals env)))),
      (S754_finite false 5854679515581645 (-54)).
    split; [ apply ok_get_plan; by_evaluation | ].
    split; [ unfold_seqZ; repeat apply Forall_cons_2; try apply Forall_nil_2;
             by_evaluation | ].
    split_conj; by_evaluation.
  - exists (get_plan (fst (calculate_section_allocation 30 (module_globals env)))),
      (S754_finite false 7806239354108860 (-55)).
    split; [ apply ok_get_plan; by_evaluation | ].
    split; [ unfold_seqZ; repeat apply Forall_cons_2; try apply Forall_nil_2;
             by_evaluation | ].
    split_conj; by_evaluation.
  - exists (get_plan (fst (calculate_section_allocation 45 (module_globals env)))),
      (S754_finite false 5854679515581645 (-55)).
    split; [ apply ok_get_plan; by_evaluation | ].
    split; [ unfold_seqZ; repeat apply Forall_cons_2; try apply Forall_nil_2;
             by_evaluation | ].
    split_conj; by_evaluation.
Qed.

(** ** Runs that return *)

(** What a run that returns went through, operation by operation. *)
Lemma bind_inr {A B} (m : M A) (k : A → M B) g b g2 :
  bind m k g = (inr b, g2) → ∃ a g1, m g = (inr a, g1) ∧ k a g1 = (inr b, g2).
Proof.
  unfold bind. destruct (m g) as [[e | a] g1]; [ discriminate | eauto ].
Qed.

Lemma weight_inr key g w g1 :
  weight key g = (inr w, g1) → g1 = g ∧ BASE_SECTION_WEIGHTS g !! key = Some w.
Proof.
  unfold weight. destruct (BASE_SECTION_WEIGHTS g !! key); intros [= <- <-]; auto.
Qed.

Lemma lift_inr {A} (r : Py.result A) g a g1 :
  lift r g = (inr a, g1) → g1 = g ∧ r = inr a.
Proof. unfold lift. intros [= -> <-]. auto. Qed.

Lemma ret_inr {A} (a b : A) g g1 : ret a g = (inr b, g1) → g1 = g ∧ b = a.
Proof. unfold ret. intros [= <- <-]. auto. Qed.

Lemma int_mul_float_inr n w x :
  Py.int_mul_float n w = inr x →
  ∃ a, Py.float_of_int n = inr a ∧ x = Py.float_mul a w.
Proof.
  unfold Py.int_mul_float. destruct (Py.float_of_int n); intros [= <-]; eauto.
Qed.

Lemma scaled_inr n key g z g1 :
  scaled n key g = (inr z, g1) →
  g1 = g ∧ ∃ w a, BASE_SECTION_WEIGHTS g !! key = Some w
                  ∧ Py.float_of_int n = inr a
                  ∧ Py.int_of_float (Py.float_mul a w) = inr z.
Proof.
  unfold scaled. intros H.
  apply bind_inr in H as (w & g2 & Hw & H). apply weight_inr in Hw as [-> Hw].
  apply bind_inr in H as (x & g2 & Hx & H). apply lift_inr in Hx as [-> Hx].
  apply lift_inr in H as [-> H].
  apply int_mul_float_inr in Hx as (a & Ha & ->). eauto 10.
Qed.

Lemma fst_inr {A} (x : Py.result A * Globals) a :
  fst x = inr a → ∃ g, x = (inr a, g).
Proof. destruct x as [r g]. simpl. intros ->. eauto. Qed.

Lemma module_weights (env : Z) :
  BASE_SECTION_WEIGHTS (module_globals env) = base_section_weights.
Proof. reflexivity. Qed.

(** Splits a run [H : (x <- m ;; k) g = (inr _, _)] into its steps. *)
Ltac invert_run H :=
  repeat (cbv zeta in H;
          lazymatch type of H with
          | bind _ _ _ = (inr _, _) =>
              let a := fresh "v" in
              let g1 := fresh "g" in
              let Hm := fresh "Hm" in
              apply bind_inr in H as (a & g1 & Hm & H);
              first [ apply weight_inr in Hm as [-> Hm]
                    | apply scaled_inr in Hm as [-> Hm]
                    | apply lift_inr in Hm as [-> Hm] ]
          end).

(** Replaces the weights read from the module's table by its literals. *)
Ltac resolve_weights :=
  repeat match goal with
         | H : ∃ _, _ |- _ => destruct H as (? & H)
         | H : _ ∧ _ |- _ => destruct H as (? & H)
         | H : BASE_SECTION_WEIGHTS (module_globals _) !! _ = Some _ |- _ =>
             rewrite module_weights in H; vm_compute in H; injection H as <-
         end.

(** Runs the loop over the main-story slots, their number being known. *)
Ltac unroll_main_stories :=
  unfold range; simpl Z.add; simpl Z.sub; unfold_seqZ; simpl foldl;
  repeat match goal with
         | |- context [main_story_key ?i] =>
             let k := eval vm_compute in (main_story_key i) in
             change (main_story_key i) with k
         end.

(** Equal operations have equal results. *)
Ltac unify_results :=
  repeat match goal with
         | H1 : ?op = inr ?a, H2 : ?op = inr ?b |- _ =>
             tryif constr_eq a b then fail
             else (assert (a = b) by congruence; subst b; clear H2)
         end.

(** From [H : fst (calculate_section_allocation d (module_globals env)) =
    inr p], the plan [p] written out, once per number of main stories. *)
Ltac invert_allocation H :=
  apply fst_inr in H as [? H];
  unfold calculate_section_allocation in H;
  invert_run H;
  apply ret_inr in H as [-> ->];
  resolve_weights;
  try match goal with
      | H : Py.float_div_int _ (if ?d =? 15 then _ else _) = _ |- _ =>
          destruct (Z.eqb_spec d 15); [ | destruct (Z.eqb_spec d 30) ]
      end;
  unroll_main_stories;
  unify_results.

(** Computes the key set of a written-out dictionary. *)
Ltac plan_dom := rewrite ?dom_insert_L, ?dom_singleton_L.

(** Looks a concrete key up in a written-out dictionary. *)
Ltac plan_lookup :=
  unfold field;
  repeat first [ rewrite lookup_insert_eq
               | rewrite lookup_singleton_eq
               | rewrite lookup_insert_ne by done
               | progress simpl ].

(** A returned plan has the seven fixed sections and the main-story
    slots, and nothing else. *)
Lemma plan_domain d env p :
  fst (calculate_section_allocation d (module_globals env)) = inr p →
  dom p = fixed_section_keys ∪ main_story_key_set (config_num_main_stories d).
Proof.
  intros H. invert_allocation H.
  all: unfold config_num_main_stories.
  all: repeat match goal with
         | |- context [?a =? ?b] => destruct (Z.eqb_spec a b); try lia
         end.
  all: plan_dom; by_evaluation.
Qed.

(** C6: in a returned plan the transitions section has no
    word_count_target and every other section (fixed or main story) has
    one; enabled is present exactly on listener_questions, deep_dive and
    expert_interview, with the values true, false and false. *)
Theorem section_record_fields d env p :
  fst (calculate_section_allocation d (module_globals env)) = inr p →
  (∀ s r, p !! s = Some r →
          ("word_count_target" ∈ dom r ↔ s ≠ "transitions")
          ∧ ("enabled" ∈ dom r
             ↔ s ∈ ["listener_questions"; "deep_dive"; "expert_interview"]))
  ∧ fixed_section_keys ⊆ dom p
  ∧ main_story_key_set (config_num_main_stories d) ⊆ dom p
  ∧ field p "listener_questions" "enabled" = Some (VBool true)
  ∧ field p "deep_dive" "enabled" = Some (VBool false)
  ∧ field p "expert_interview" "enabled" = Some (VBool false).
Proof.
  intros H. invert_allocation H.
  all: unfold config_num_main_stories.
  all: repeat match goal with
         | |- context [?a =? ?b] => destruct (Z.eqb_spec a b); try lia
         end.
  all: split_conj; [ | plan_dom; by_evaluation | plan_dom; by_evaluation
                     | plan_lookup; reflexivity .. ].
  all: match goal with
       | |- ∀ s r, ?p !! s = Some r → @?Q s r => change (map_Forall Q p)
       end.
  all: repeat apply map_Forall_insert_2; try apply map_Forall_singleton.
  all: plan_dom; by_evaluation.
Qed.

(** The plan at 30 minutes, for instantiating the statements above. *)
Lemma returns_30 :
  fst (calculate_section_allocation 30 (module_globals 30))
  = inr (get_plan (fst (calculate_section_allocation 30 (module_globals 30)))).
Proof. apply ok_get_plan. by_evaluation. Defined.

Lemma section_record_fields_witness :
  field (get_plan (fst (calculate_section_allocation 30 (module_globals 30))))
    "listener_questions" "enabled" = Some (VBool true).
Proof. apply (section_record_fields 30 30 _ returns_30). Defined.

(** C9: called with any integer other than 15 and 30, a returned plan
    has exactly the four main-story entries main_story_1 to
    main_story_4. *)
Theorem main_story_slots_off_tier d env p :
  d ≠ 15 → d ≠ 30 →
  fst (calculate_section_allocation d (module_globals env)) = inr p →
  main_story_keys p
  = {[ "main_story_1"; "main_story_2"; "main_story_3"; "main_story_4" ]}
  ∧ size (main_story_keys p) = 4%nat.
Proof.
  intros H15 H30 H. apply plan_domain in H.
  unfold main_story_keys. rewrite H. unfold config_num_main_stories.
  destruct (Z.eqb_spec d 15); [ done | ].
  destruct (Z.eqb_spec d 30); [ done | ].
  split; by_evaluation.
Qed.

Lemma returns_20 :
  fst (calculate_section_allocation 20 (module_globals 30))
  = inr (get_plan (fst (calculate_section_allocation 20 (module_globals 30)))).
Proof. apply ok_get_plan. by_evaluation. Defined.

Lemma main_story_slots_off_tier_witness :
  size (main_story_keys
          (get_plan (fst (calculate_section_allocation 20 (module_globals 30)))))
  = 4%nat.
Proof.
  apply (main_story_slots_off_tier 20 30 _ ltac:(lia) ltac:(lia) returns_20).
Defined.

(** C10: in a returned plan the intro and outro records are equal field
    for field, with weight 0.05, and so are the deep_dive and
    expert_interview records, with weight 0.10 and enabled false. *)
Theorem twin_sections_equal d env p :
  fst (calculate_section_allocation d (module_globals env)) = inr p →
  (∃ r, p !! "intro" = Some r ∧ p !! "outro" = Some r
        ∧ dom r = {[ "duration_seconds"; "weight"; "word_count_target" ]}
        ∧ r !! "weight" = Some (VFloat Py.lit_0_05))
  ∧ (∃ r, p !! "deep_dive" = Some r ∧ p !! "expert_interview" = Some r
          ∧ dom r = {[ "duration_seconds"; "weight"; "word_count_target";
                       "enabled" ]}
          ∧ r !! "weight" = Some (VFloat Py.lit_0_10)
          ∧ r !! "enabled" = Some (VBool false)).
Proof.
  intros H. invert_allocation H.
  all: split; eexists; split_conj.
  all: first [ plan_lookup; reflexivity | plan_dom; by_evaluation ].
Qed.

Lemma twin_sections_equal_witness :
  ∃ r, get_plan (fst (calculate_section_allocation 30 (module_globals 30)))
         !! "intro" = Some r
       ∧ get_plan (fst (calculate_section_allocation 30 (module_globals 30)))
           !! "outro" = Some r.
Proof.
  destruct (twin_sections_equal 30 30 _ returns_30) as [(r & Hi & Ho & _) _].
  exists r. split; [ exact Hi | exact Ho ].
Defined.

(** ** Determinism and the frame of a call *)

Section Frame.

Context {A B : Type}.

Lemma reads_only_weights_ret (a : A) : reads_only_weights (ret a).
Proof. by exists (λ _, inr a). Qed.

Lemma reads_only_weights_lift (r : Py.result A) : reads_only_weights (lift r).
Proof. by exists (λ _, r). Qed.

Lemma reads_only_weights_bind (m : M A) (k : A → M B) :
  reads_only_weights m → (∀ a, reads_only_weights (k a)) →
  reads_only_weights (bind m k).
Proof.
  intros [f Hf] Hk.
  exists (λ W, match f W with
               | inl e => inl e
               | inr a => fst (k a {| PODCAST_DURATION_MINUTES := 0;
                                      BASE_SECTION_WEIGHTS := W |})
               end).
  intros g. unfold bind. rewrite Hf.
  destruct (f (BASE_SECTION_WEIGHTS g)) as [e | a]; [ done | ].
  destruct (Hk a) as [h Hh]. by rewrite !Hh.
Qed.

End Frame.

Lemma reads_only_weights_weight key : reads_only_weights (weight key).
Proof.
  exists (λ W, match W !! key with
               | Some w => inr w
               | None => inl (Py.KeyError key)
               end).
  intros g. unfold weight. by destruct (BASE_SECTION_WEIGHTS g !! key).
Qed.

Ltac reads_only_weights :=
  repeat first [ apply reads_only_weights_ret
               | apply reads_only_weights_lift
               | apply reads_only_weights_weight
               | apply reads_only_weights_bind; [ | intros ? ]
               | progress cbv zeta ].

Lemma reads_only_weights_scaled n key : reads_only_weights (scaled n key).
Proof. unfold scaled. reads_only_weights. Qed.

Lemma reads_only_weights_allocation d :
  reads_only_weights (calculate_section_allocation d).
Proof.
  unfold calculate_section_allocation.
  repeat first [ apply reads_only_weights_scaled | reads_only_weights ].
Qed.

Lemma run_calls_frame ds g :
  run_calls ds g = ((λ d, fst (calculate_section_allocation d g)) <$> ds, g).
Proof.
  induction ds as [| d ds IH]; [ done | ]. simpl.
  destruct (reads_only_weights_allocation d) as [f Hf].
  rewrite Hf, IH. simpl. reflexivity.
Qed.

(** C8: a call leaves the globals as they were, its output depends on
    the globals only through the table BASE_SECTION_WEIGHTS, and in any
    sequence of calls every call returns what a single call with its
    argument returns, so two calls with the same duration return the
    same output wherever they stand in the sequence. *)
Theorem allocation_deterministic_stateless :
  ∀ (d : Z) (g : Globals),
    snd (calculate_section_allocation d g) = g
    ∧ (∀ g', BASE_SECTION_WEIGHTS g' = BASE_SECTION_WEIGHTS g →
             fst (calculate_section_allocation d g')
             = fst (calculate_section_allocation d g))
    ∧ (∀ ds, run_calls ds g
             = ((λ d', fst (calculate_section_allocation d' g)) <$> ds, g))
    ∧ (∀ ds i j, ds !! i = Some d → ds !! j = Some d →
                 fst (run_calls ds g) !! i = fst (run_calls ds g) !! j).
Proof.
  intros d g. destruct (reads_only_weights_allocation d) as [f Hf].
  split_conj.
  - by rewrite Hf.
  - intros g' HW. by rewrite !Hf, HW.
  - intros ds. apply run_calls_frame.
  - intros ds i j Hi Hj. rewrite run_calls_frame. simpl.
    by rewrite !list_lookup_fmap, Hi, Hj.
Qed.

(** ** Binary64 rounding: when it stays finite

    Bounds on the number of binary digits show that a product by a
    weight does not round to an infinity; the conversion of an integer
    overflows exactly from [float_overflow_threshold] on. *)
Lemma digits2_pos_size p : digits2_pos p = Pos.size p.
Proof. induction p; simpl; congruence. Qed.

Lemma Zdigits2_bounds z : 0 < z → 2 ^ (Zdigits2 z - 1) <= z < 2 ^ Zdigits2 z.
Proof.
  destruct z as [| p | p]; try lia. intros _. simpl Zdigits2.
  rewrite digits2_pos_size.
  pose proof (Pos.size_gt p) as Hgt. pose proof (Pos.size_le p) as Hle.
  split.
  - assert (2 ^ Z.pos (Pos.size p) <= 2 * Z.pos p) as H.
    { rewrite <- Pos2Z.inj_pow. change (2 * Z.pos p) with (Z.pos p~0). lia. }
    replace (Z.pos (Pos.size p)) with (Z.succ (Z.pos (Pos.size p) - 1)) in H by lia.
    rewrite Z.pow_succ_r in H by lia. lia.
  - rewrite <- Pos2Z.inj_pow. lia.
Qed.

Lemma Zdigits2_nonneg z : 0 <= Zdigits2 z.
Proof. destruct z; simpl; lia. Qed.

Lemma Zdigits2_le z k : 0 <= k → 0 <= z < 2 ^ k → Zdigits2 z <= k.
Proof.
  intros Hk [Hz Hlt]. destruct (Z.eq_dec z 0) as [-> | Hne]; [ simpl; lia | ].
  destruct (Zdigits2_bounds z ltac:(lia)) as [Hlo _].
  destruct (Z_le_gt_dec (Zdigits2 z) k) as [ | Hgt ]; [ done | exfalso ].
  assert (2 ^ k <= 2 ^ (Zdigits2 z - 1)) by (apply Z.pow_le_mono_r; lia).
  lia.
Qed.

Lemma Zdigits2_mul a b :
  0 < a → 0 < b → Zdigits2 (a * b) <= Zdigits2 a + Zdigits2 b.
Proof.
  intros Ha Hb. pose proof (Zdigits2_nonneg a). pose proof (Zdigits2_nonneg b).
  apply Zdigits2_le; [ lia | ].
  destruct (Zdigits2_bounds a Ha) as [_ Ha'].
  destruct (Zdigits2_bounds b Hb) as [_ Hb'].
  rewrite Z.pow_add_r by lia. nia.
Qed.

(** Shifting a mantissa right. *)
Lemma shr_1_m mrs : 0 <= shr_m mrs → shr_m (shr_1 mrs) = shr_m mrs / 2.
Proof.
  destruct mrs as [m r s]. simpl. intros Hm.
  destruct m as [| [p | p |] | p]; simpl shr_m; try lia; try reflexivity.
  - apply Z.div_unique with 1; lia.
  - apply Z.div_unique with 0; lia.
Qed.

Lemma iter_shr_1_m n mrs :
  0 <= shr_m mrs →
  shr_m (SpecFloat.iter_pos shr_1 n mrs) = shr_m mrs / 2 ^ Z.pos n.
Proof.
  revert mrs. induction n as [n IH | n IH |]; intros mrs Hm; simpl SpecFloat.iter_pos.
  - assert (0 <= shr_m (shr_1 mrs)) as H1 by (rewrite shr_1_m by done; apply Z.div_pos; lia).
    assert (0 <= shr_m (SpecFloat.iter_pos shr_1 n (shr_1 mrs))) as H2
        by (rewrite IH by done; apply Z.div_pos; lia).
    rewrite IH, IH, shr_1_m by done.
    rewrite !Z.div_div by lia. f_equal.
    rewrite Pos2Z.inj_xI, <- Z.pow_add_r, <- Z.pow_succ_r by lia. f_equal. lia.
  - assert (0 <= shr_m (SpecFloat.iter_pos shr_1 n mrs)) as H2
        by (rewrite IH by done; apply Z.div_pos; lia).
    rewrite IH, IH by done.
    rewrite !Z.div_div by lia. f_equal.
    rewrite Pos2Z.inj_xO, <- Z.pow_add_r by lia. f_equal. lia.
  - rewrite shr_1_m by done. reflexivity.
Qed.

Lemma fexp_double e : fexp Py.prec Py.emax e = Z.max (e - 53) (-1074).
Proof. reflexivity. Qed.

Lemma Zdigits2_lt_pow z : 0 <= z → z < 2 ^ Zdigits2 z.
Proof.
  intros Hz. destruct (Z.eq_dec z 0) as [-> | ]; [ done | ].
  apply Zdigits2_bounds. lia.
Qed.

Lemma shr_fexp_spec m e l :
  0 <= m →
  ∃ mrs e', shr_fexp Py.prec Py.emax m e l = (mrs, e')
            ∧ 0 <= shr_m mrs < 2 ^ 53
            ∧ e' = Z.max e (fexp Py.prec Py.emax (Zdigits2 m + e)).
Proof.
  intros Hm. unfold shr_fexp, shr. rewrite fexp_double.
  pose proof (Zdigits2_nonneg m) as Hd. pose proof (Zdigits2_lt_pow m Hm) as Hlt.
  assert (Hrec : shr_m (shr_record_of_loc m l) = m) by (by destruct l as [| []]).
  destruct (Z.max (Zdigits2 m + e - 53) (-1074) - e) as [| n | n] eqn:Hn.
  - eexists _, _. split; [ reflexivity | ]. rewrite Hrec. split; [ | lia ].
    split; [ done | ]. eapply Z.lt_le_trans; [ exact Hlt | ].
    apply Z.pow_le_mono_r; lia.
  - eexists _, _. split; [ reflexivity | ].
    rewrite iter_shr_1_m by (rewrite Hrec; done). rewrite Hrec.
    split; [ | lia ]. split; [ apply Z.div_pos; lia | ].
    apply Z.div_lt_upper_bound; [ lia | ].
    rewrite <- Z.pow_add_r by lia.
    eapply Z.lt_le_trans; [ exact Hlt | ]. apply Z.pow_le_mono_r; lia.
  - eexists _, _. split; [ reflexivity | ]. rewrite Hrec. split; [ | lia ].
    split; [ done | ]. eapply Z.lt_le_trans; [ exact Hlt | ].
    apply Z.pow_le_mono_r; lia.
Qed.

Lemma round_nearest_even_bounds m l :
  m <= round_nearest_even m l <= m + 1.
Proof.
  unfold round_nearest_even. destruct l as [| []]; try lia.
  destruct (Z.even m); lia.
Qed.

Lemma binary_round_aux_finite s m e l :
  0 <= m → e <= 970 → Zdigits2 m + e <= 1023 →
  finite_double (binary_round_aux Py.prec Py.emax s m e l).
Proof.
  intros Hm He Hde. unfold binary_round_aux.
  destruct (shr_fexp_spec m e l Hm) as (mrs1 & e1 & -> & Hm1 & He1).
  rewrite fexp_double in He1.
  pose proof (round_nearest_even_bounds (shr_m mrs1) (loc_of_shr_record mrs1)) as Hr.
  set (m2 := round_nearest_even (shr_m mrs1) (loc_of_shr_record mrs1)) in *.
  destruct (shr_fexp_spec m2 e1 loc_Exact ltac:(lia)) as (mrs2 & e2 & -> & Hm2 & He2).
  rewrite fexp_double in He2.
  assert (Zdigits2 m2 <= 54) as Hd2 by (apply Zdigits2_le; lia).
  destruct (shr_m mrs2) as [| p | p] eqn:Hp; simpl; [ done | | lia ].
  replace (e2 <=? Py.emax - Py.prec) with true
    by (symmetry; apply Z.leb_le; change (Py.emax - Py.prec) with 971; lia).
  simpl. split; [ | lia ].
  change (Z.pos (digits2_pos p)) with (Zdigits2 (Z.pos p)).
  apply Zdigits2_le; lia.
Qed.

Lemma iter_xO_pow m d : Z.pos (Pos.iter xO m d) = Z.pos m * 2 ^ Z.pos d.
Proof.
  induction d as [| d IH] using Pos.peano_ind.
  - simpl. lia.
  - rewrite Pos.iter_succ, Pos2Z.inj_xO, IH, Pos2Z.inj_succ, Z.pow_succ_r by lia.
    lia.
Qed.

Lemma binary_round_finite s p :
  Z.pos p < 2 ^ 1023 → finite_double (binary_round Py.prec Py.emax s p 0).
Proof.
  intros Hp. unfold binary_round, shl_align. rewrite fexp_double.
  pose proof (Zdigits2_bounds (Z.pos p) ltac:(lia)) as [Hlo Hhi].
  assert (Zdigits2 (Z.pos p) <= 1023) as Hd by (apply Zdigits2_le; lia).
  change (Zdigits2 (Z.pos p)) with (Z.pos (digits2_pos p)) in *.
  destruct (Z.max (Z.pos (digits2_pos p) + 0 - 53) (-1074) - 0) as [| k | k] eqn:Hk.
  - apply binary_round_aux_finite; simpl Zdigits2; lia.
  - apply binary_round_aux_finite; simpl Zdigits2; lia.
  - apply binary_round_aux_finite; [ lia | lia | ].
    assert (Zdigits2 (Z.pos (Pos.iter xO p k)) <= 53); [ | lia ].
    apply Zdigits2_le; [ lia | ]. rewrite iter_xO_pow. split; [ lia | ].
    replace 53 with (Z.pos (digits2_pos p) + Z.pos k) by lia.
    rewrite Z.pow_add_r by lia. nia.
Qed.

(** *** The round bit and the overflow threshold *)
Lemma shr_1_r mrs : 0 <= shr_m mrs → shr_r (shr_1 mrs) = Z.odd (shr_m mrs).
Proof.
  destruct mrs as [m r s]. simpl. intros Hm.
  destruct m as [| [p | p |] | p]; simpl; try lia; reflexivity.
Qed.

Lemma shr_1_nonneg mrs : 0 <= shr_m mrs → 0 <= shr_m (shr_1 mrs).
Proof. intros H. rewrite shr_1_m by done. apply Z.div_pos; lia. Qed.

Lemma iter_shr_1_nonneg n mrs :
  0 <= shr_m mrs → 0 <= shr_m (SpecFloat.iter_pos shr_1 n mrs).
Proof. intros H. rewrite iter_shr_1_m by done. apply Z.div_pos; lia. Qed.

Lemma iter_shr_1_r n mrs :
  0 <= shr_m mrs →
  shr_r (SpecFloat.iter_pos shr_1 n mrs) = Z.testbit (shr_m mrs) (Z.pos n - 1).
Proof.
  revert mrs. induction n as [n IH | n IH |]; intros mrs Hm; simpl SpecFloat.iter_pos.
  - pose proof (shr_1_nonneg mrs Hm) as H1.
    pose proof (iter_shr_1_nonneg n _ H1) as H2.
    rewrite IH, iter_shr_1_m, shr_1_m by done.
    rewrite Z.div_div by lia. change 2 with (2 ^ 1) at 1.
    rewrite <- Z.pow_add_r, Z.div_pow2_bits by lia. f_equal. lia.
  - pose proof (iter_shr_1_nonneg n _ Hm) as H2.
    rewrite IH, iter_shr_1_m by done.
    rewrite Z.div_pow2_bits by lia. f_equal. lia.
  - rewrite shr_1_r by done. symmetry. apply Z.bit0_odd.
Qed.

Lemma shr_fexp_exact m e l :
  0 <= m →
  ∃ mrs e', shr_fexp Py.prec Py.emax m e l = (mrs, e')
            ∧ e' = Z.max e (fexp Py.prec Py.emax (Zdigits2 m + e))
            ∧ shr_m mrs = m / 2 ^ (e' - e)
            ∧ (e < e' → shr_r mrs = Z.testbit m (e' - e - 1))
            ∧ (e' = e → mrs = shr_record_of_loc m l).
Proof.
  intros Hm. unfold shr_fexp, shr. rewrite fexp_double.
  assert (Hrec : shr_m (shr_record_of_loc m l) = m) by (by destruct l as [| []]).
  destruct (Z.max (Zdigits2 m + e - 53) (-1074) - e) as [| n | n] eqn:Hn.
  - eexists _, _. split; [ reflexivity | ].
    replace (Z.max e (Z.max (Zdigits2 m + e - 53) (-1074))) with e by lia.
    rewrite Z.sub_diag, Z.div_1_r. split_conj; try done; lia.
  - eexists _, _. split; [ reflexivity | ].
    replace (Z.max e (Z.max (Zdigits2 m + e - 53) (-1074))) with (e + Z.pos n) by lia.
    replace (e + Z.pos n - e) with (Z.pos n) by lia.
    rewrite iter_shr_1_m, iter_shr_1_r by (rewrite Hrec; done). rewrite Hrec.
    split_conj; try done; lia.
  - eexists _, _. split; [ reflexivity | ].
    replace (Z.max e (Z.max (Zdigits2 m + e - 53) (-1074))) with e by lia.
    rewrite Z.sub_diag, Z.div_1_r. split_conj; try done; lia.
Qed.

Lemma Zdigits2_eq z D : 0 < D → 2 ^ (D - 1) <= z < 2 ^ D → Zdigits2 z = D.
Proof.
  intros HD [Hlo Hhi].
  assert (0 < z) as Hz by (pose proof (Z.pow_pos_nonneg 2 (D - 1)); lia).
  destruct (Zdigits2_bounds z Hz) as [Hlo' Hhi'].
  pose proof (Zdigits2_nonneg z).
  destruct (Z.lt_trichotomy (Zdigits2 z) D) as [Hlt | [Heq | Hgt]]; [ | done | ].
  - assert (2 ^ Zdigits2 z <= 2 ^ (D - 1)) by (apply Z.pow_le_mono_r; lia). lia.
  - assert (2 ^ D <= 2 ^ (Zdigits2 z - 1)) by (apply Z.pow_le_mono_r; lia). lia.
Qed.

Lemma round_up mrs :
  shr_r mrs = true → Z.odd (shr_m mrs) = true →
  round_nearest_even (shr_m mrs) (loc_of_shr_record mrs) = shr_m mrs + 1.
Proof.
  destruct mrs as [m r s]. simpl. intros -> Hodd.
  destruct s; simpl; [ reflexivity | ].
  by rewrite <- Z.negb_odd, Hodd.
Qed.

Lemma round_down mrs :
  shr_r mrs = false →
  round_nearest_even (shr_m mrs) (loc_of_shr_record mrs) = shr_m mrs.
Proof. destruct mrs as [m r s]. simpl. intros ->. by destruct s. Qed.

(** An integer of at least 54 bits is rounded as it stands. *)
Lemma binary_round_long s p :
  2 ^ 53 <= Z.pos p →
  binary_round Py.prec Py.emax s p 0
  = binary_round_aux Py.prec Py.emax s (Z.pos p) 0 loc_Exact.
Proof.
  intros Hp. unfold binary_round, shl_align. rewrite fexp_double.
  destruct (Zdigits2_bounds (Z.pos p) ltac:(lia)) as [_ Hhi].
  assert (53 < Zdigits2 (Z.pos p)) as HD.
  { apply (Z.pow_lt_mono_r_iff 2); [ lia | apply Zdigits2_nonneg | lia ]. }
  simpl Zdigits2 in HD.
  destruct (Z.max (Z.pos (digits2_pos p) + 0 - 53) (-1074) - 0) eqn:E;
    [ reflexivity | reflexivity | lia ].
Qed.

Lemma binary_round_below_threshold s p :
  2 ^ 1023 <= Z.pos p < float_overflow_threshold →
  finite_double (binary_round Py.prec Py.emax s p 0).
Proof.
  unfold float_overflow_threshold. intros [Hlo Hhi].
  rewrite binary_round_long by lia. unfold binary_round_aux.
  assert (Zdigits2 (Z.pos p) = 1024) as HD by (apply Zdigits2_eq; lia).
  destruct (shr_fexp_exact (Z.pos p) 0 loc_Exact ltac:(lia))
    as (mrs1 & e1 & -> & He1 & Hm1 & Hr1 & _).
  rewrite fexp_double, HD in He1. assert (e1 = 971) as -> by lia.
  replace (971 - 0) with 971 in Hm1 by lia.
  replace (971 - 0 - 1) with 970 in Hr1 by lia.
  specialize (Hr1 ltac:(lia)).
  assert (2 ^ 52 <= shr_m mrs1 < 2 ^ 53) as Hb1.
  { rewrite Hm1. split.
    - apply Z.div_le_lower_bound; lia.
    - apply Z.div_lt_upper_bound; lia. }
  assert (2 ^ 52 <= round_nearest_even (shr_m mrs1) (loc_of_shr_record mrs1) < 2 ^ 53)
    as Hb2.
  { pose proof (round_nearest_even_bounds (shr_m mrs1) (loc_of_shr_record mrs1)).
    destruct (Z.eq_dec (shr_m mrs1) (2 ^ 53 - 1)) as [Hmax | Hne]; [ | lia ].
    rewrite round_down; [ lia | ].
    rewrite Hr1, Z.testbit_odd, Z.shiftr_div_pow2 by lia.
    assert (Z.pos p / 2 ^ 970 = 2 * (2 ^ 53 - 1)) as ->; [ | reflexivity ].
    symmetry. apply Z.div_unique with (Z.pos p - 2 * (2 ^ 53 - 1) * 2 ^ 970); [ | lia ].
    assert ((2 ^ 53 - 1) * 2 ^ 971 <= Z.pos p).
    { rewrite <- Hmax, Hm1. rewrite Z.mul_comm. apply Z.mul_div_le. lia. }
    lia. }
  set (m2 := round_nearest_even (shr_m mrs1) (loc_of_shr_record mrs1)) in *.
  assert (Zdigits2 m2 = 53) as HD2 by (apply Zdigits2_eq; lia).
  destruct (shr_fexp_exact m2 971 loc_Exact ltac:(lia))
    as (mrs2 & e2 & -> & He2 & Hm2 & _ & _).
  rewrite fexp_double, HD2 in He2. assert (e2 = 971) as -> by lia.
  rewrite Z.sub_diag, Z.div_1_r in Hm2. rewrite Hm2.
  destruct m2 as [| q | q] eqn:Hq; [ lia | | lia ].
  simpl. split; [ | lia ]. change (Z.pos (digits2_pos q)) with (Zdigits2 (Z.pos q)).
  lia.
Qed.

Lemma binary_round_overflow s p :
  float_overflow_threshold <= Z.pos p →
  binary_round Py.prec Py.emax s p 0 = S754_infinity s.
Proof.
  unfold float_overflow_threshold. intros Hp.
  rewrite binary_round_long by lia. unfold binary_round_aux.
  destruct (Zdigits2_bounds (Z.pos p) ltac:(lia)) as [HDlo HDhi].
  assert (1024 <= Zdigits2 (Z.pos p)) as HD.
  { assert (1023 < Zdigits2 (Z.pos p)); [ | lia ].
    apply (Z.pow_lt_mono_r_iff 2); [ lia | apply Zdigits2_nonneg | lia ]. }
  destruct (shr_fexp_exact (Z.pos p) 0 loc_Exact ltac:(lia))
    as (mrs1 & e1 & -> & He1 & Hm1 & Hr1 & _).
  rewrite fexp_double in He1.
  assert (e1 = Zdigits2 (Z.pos p) - 53) as He1' by lia. clear He1.
  assert (2 ^ 52 <= shr_m mrs1 < 2 ^ 53) as Hb1.
  { rewrite Hm1, He1'. replace (Zdigits2 (Z.pos p) - 53 - 0)
      with (Zdigits2 (Z.pos p) - 53) by lia. split.
    - apply Z.div_le_lower_bound; [ lia | ].
      rewrite <- Z.pow_add_r by lia.
      replace (Zdigits2 (Z.pos p) - 53 + 52) with (Zdigits2 (Z.pos p) - 1) by lia.
      done.
    - apply Z.div_lt_upper_bound; [ lia | ].
      rewrite <- Z.pow_add_r by lia.
      replace (Zdigits2 (Z.pos p) - 53 + 53) with (Zdigits2 (Z.pos p)) by lia.
      done. }
  pose proof (round_nearest_even_bounds (shr_m mrs1) (loc_of_shr_record mrs1)) as Hr.
  assert (972 <= e1 ∨ (e1 = 971 ∧ round_nearest_even (shr_m mrs1)
                                     (loc_of_shr_record mrs1) = 2 ^ 53)) as Hcase.
  { destruct (Z_le_gt_dec 1025 (Zdigits2 (Z.pos p))); [ left; lia | right ].
    assert (Zdigits2 (Z.pos p) = 1024) as HD' by lia.
    rewrite HD' in *. assert (e1 = 971) as -> by lia. split; [ done | ].
    replace (971 - 0) with 971 in Hm1 by lia.
    replace (971 - 0 - 1) with 970 in Hr1 by lia.
    specialize (Hr1 ltac:(lia)).
    assert (Z.pos p / 2 ^ 970 = 2 ^ 54 - 1) as Hq.
    { symmetry. apply Z.div_unique with (Z.pos p - (2 ^ 54 - 1) * 2 ^ 970); lia. }
    assert (shr_m mrs1 = 2 ^ 53 - 1) as Hmax.
    { rewrite Hm1. symmetry.
      apply Z.div_unique with (Z.pos p - (2 ^ 53 - 1) * 2 ^ 971); lia. }
    rewrite round_up; [ lia | | by rewrite Hmax ].
    by rewrite Hr1, Z.testbit_odd, Z.shiftr_div_pow2, Hq by lia. }
  set (m2 := round_nearest_even (shr_m mrs1) (loc_of_shr_record mrs1)) in *.
  assert (Zdigits2 m2 <= 54) as HD2 by (apply Zdigits2_le; lia).
  assert (53 <= Zdigits2 m2) as HD2'.
  { assert (52 < Zdigits2 m2); [ | lia ].
    pose proof (Zdigits2_lt_pow m2 ltac:(lia)).
    apply (Z.pow_lt_mono_r_iff 2); [ lia | apply Zdigits2_nonneg | lia ]. }
  destruct (shr_fexp_exact m2 e1 loc_Exact ltac:(lia))
    as (mrs2 & e2 & -> & He2 & Hm2 & _ & _).
  rewrite fexp_double in He2.
  assert (972 <= e2 ∧ 0 <= e2 - e1 <= 1) as [He2' Hsh].
  { destruct Hcase as [ | [-> Hm2'] ]; [ lia | ].
    assert (Zdigits2 m2 = 54) by (apply Zdigits2_eq; lia). lia. }
  assert (0 < shr_m mrs2) as Hpos.
  { rewrite Hm2. apply Z.div_str_pos. split; [ lia | ].
    assert (2 ^ (e2 - e1) <= 2 ^ 1) by (apply Z.pow_le_mono_r; lia). lia. }
  destruct (shr_m mrs2) as [| q | q]; [ lia | | lia ].
  replace (e2 <=? Py.emax - Py.prec) with false; [ reflexivity | ].
  symmetry. apply Z.leb_gt. change (Py.emax - Py.prec) with 971. lia.
Qed.

Lemma float_of_int_finite n :
  Z.abs n < float_overflow_threshold →
  ∃ x, Py.float_of_int n = inr x ∧ finite_double x.
Proof.
  intros Hn. unfold Py.float_of_int, binary_normalize.
  assert (∀ s p, Z.pos p < float_overflow_threshold →
                 finite_double (binary_round Py.prec Py.emax s p 0)) as Hfin.
  { intros s p Hp. destruct (Z_lt_le_dec (Z.pos p) (2 ^ 1023)).
    - by apply binary_round_finite.
    - by apply binary_round_below_threshold. }
  destruct n as [| p | p].
  - eexists. split; [ reflexivity | exact I ].
  - pose proof (Hfin false p ltac:(lia)) as H.
    destruct (binary_round Py.prec Py.emax false p 0); try done; eauto.
  - pose proof (Hfin true p ltac:(lia)) as H.
    destruct (binary_round Py.prec Py.emax true p 0); try done; eauto.
Qed.

Lemma float_of_int_overflow n :
  float_overflow_threshold <= Z.abs n →
  Py.float_of_int n = inl Py.OverflowError.
Proof.
  intros Hn. unfold Py.float_of_int, binary_normalize.
  destruct n as [| p | p].
  - unfold float_overflow_threshold in Hn. lia.
  - by rewrite binary_round_overflow by lia.
  - by rewrite binary_round_overflow by lia.
Qed.

Lemma float_mul_finite a w :
  finite_double a → small_weight w → finite_double (Py.float_mul a w).
Proof.
  destruct a as [sa | | | sa ma ea], w as [| | | sw mw ew]; try done.
  intros [Hma Hea] [Hmw Hew]. unfold Py.float_mul, SFmul.
  apply binary_round_aux_finite; [ lia | lia | ].
  rewrite Pos2Z.inj_mul.
  pose proof (Zdigits2_mul (Z.pos ma) (Z.pos mw) ltac:(lia) ltac:(lia)) as H.
  simpl Zdigits2 in H at 2 3. lia.
Qed.

Lemma int_of_float_finite x : finite_double x → ∃ z, Py.int_of_float x = inr z.
Proof. destruct x; try done; simpl; eauto. Qed.

Lemma scaled_returns n key g w :
  Z.abs n < float_overflow_threshold →
  BASE_SECTION_WEIGHTS g !! key = Some w → small_weight w →
  ∃ z, scaled n key g = (inr z, g).
Proof.
  intros Hn Hw Hsmall.
  destruct (float_of_int_finite n Hn) as (a & Ha & Hfin).
  destruct (int_of_float_finite _ (float_mul_finite a w Hfin Hsmall)) as [z Hz].
  exists z. unfold scaled, bind, weight, lift, Py.int_mul_float.
  by rewrite Hw, Ha, Hz.
Qed.

Lemma base_section_weights_lookup :
  base_section_weights !! "intro" = Some Py.lit_0_05
  ∧ base_section_weights !! "main_stories" = Some Py.lit_0_65
  ∧ base_section_weights !! "tech_spotlight" = Some Py.lit_0_15
  ∧ base_section_weights !! "listener_questions" = Some Py.lit_0_08
  ∧ base_section_weights !! "deep_dive" = Some Py.lit_0_10
  ∧ base_section_weights !! "expert_interview" = Some Py.lit_0_10
  ∧ base_section_weights !! "outro" = Some Py.lit_0_05
  ∧ base_section_weights !! "transitions" = Some Py.lit_0_07.
Proof. split_conj; vm_compute; reflexivity. Qed.

Lemma weight_module_returns key env :
  key ∈ fixed_section_keys ∪ {[ "main_stories" ]} →
  ∃ w, weight key (module_globals env) = (inr w, module_globals env)
       ∧ (key = "main_stories" → w = Py.lit_0_65)
       ∧ (key ≠ "main_stories" → small_weight w).
Proof.
  intros Hkey. unfold weight. rewrite (module_weights env).
  destruct base_section_weights_lookup as (H1 & H2 & H3 & H4 & H5 & H6 & H7 & H8).
  unfold fixed_section_keys in Hkey. set_unfold in Hkey.
  destruct Hkey as [[[[[[[-> | ->] | ->] | ->] | ->] | ->] | ->] | ->].
  all: first [ rewrite H1 | rewrite H2 | rewrite H3 | rewrite H4
             | rewrite H5 | rewrite H6 | rewrite H7 | rewrite H8 ].
  all: eexists; split; [ reflexivity | ].
  all: split; [ intros; first [ done | reflexivity ]
              | intros; first [ done | simpl; lia ] ].
Qed.

Lemma scaled_module_returns n key env :
  Z.abs n < float_overflow_threshold → key ∈ fixed_section_keys →
  ∃ z, scaled n key (module_globals env) = (inr z, module_globals env).
Proof.
  intros Hn Hkey.
  destruct (weight_module_returns key env (elem_of_union_l _ _ _ Hkey))
    as (w & Hw & _ & Hs).
  assert (key ≠ "main_stories") as Hne
    by (intros ->; revert Hkey; apply (bool_decide_unpack _); vm_compute; exact I).
  unfold weight in Hw.
  destruct (BASE_SECTION_WEIGHTS (module_globals env) !! key) as [w' |] eqn:E;
    [ | discriminate ].
  injection Hw as ->.
  by apply scaled_returns with w; [ | | apply Hs ].
Qed.

Lemma bind_step {A B} (m : M A) (k : A → M B) g a g1 :
  m g = (inr a, g1) → bind m k g = k a g1.
Proof. unfold bind. by intros ->. Qed.

Lemma main_story_weight_returns N :
  N ∈ [2; 3; 4] →
  ∃ w, Py.float_div_int Py.lit_0_65 N = inr w ∧ small_weight w.
Proof.
  rewrite !elem_of_cons, elem_of_nil. intros [-> | [-> | [-> | []]]].
  - exists (S754_finite false 5854679515581645 (-54)).
    split; [ vm_compute; reflexivity | simpl; lia ].
  - exists (S754_finite false 7806239354108860 (-55)).
    split; [ vm_compute; reflexivity | simpl; lia ].
  - exists (S754_finite false 5854679515581645 (-55)).
    split; [ vm_compute; reflexivity | simpl; lia ].
Qed.

Lemma int_mul_float_returns n w :
  Z.abs n < float_overflow_threshold → small_weight w →
  ∃ x z, Py.int_mul_float n w = inr x ∧ Py.int_of_float x = inr z.
Proof.
  intros Hn Hw. destruct (float_of_int_finite n Hn) as (a & Ha & Hfin).
  destruct (int_of_float_finite _ (float_mul_finite a w Hfin Hw)) as [z Hz].
  exists (Py.float_mul a w), z. unfold Py.int_mul_float. by rewrite Ha.
Qed.

(** Runs the next operation of the function at the module's globals. *)
Ltac run_step env H60 H150 :=
  cbv zeta; cbv beta;
  lazymatch goal with
  | |- context [bind (scaled (?d * 60) ?key) ?k ?g] =>
      let z := fresh "z" in
      let Hz := fresh "Hz" in
      destruct (scaled_module_returns (d * 60) key env H60
                  ltac:(apply (bool_decide_unpack _); vm_compute; exact I))
        as [z Hz];
      rewrite (bind_step _ k _ _ _ Hz)
  | |- context [bind (scaled (?d * 150) ?key) ?k ?g] =>
      let z := fresh "z" in
      let Hz := fresh "Hz" in
      destruct (scaled_module_returns (d * 150) key env H150
                  ltac:(apply (bool_decide_unpack _); vm_compute; exact I))
        as [z Hz];
      rewrite (bind_step _ k _ _ _ Hz)
  | |- context [bind (weight ?key) ?k ?g] =>
      let w := fresh "w" in
      let Hw := fresh "Hw" in
      let Hm := fresh "Hm" in
      destruct (weight_module_returns key env
                  ltac:(apply (bool_decide_unpack _); vm_compute; exact I))
        as (w & Hw & Hm & _);
      rewrite (bind_step _ k _ _ _ Hw);
      try (rewrite (Hm eq_refl)); clear Hm
  end.

Lemma allocation_returns d env :
  Z.abs d * 150 < float_overflow_threshold →
  is_ok (fst (calculate_section_allocation d (module_globals env))) = true.
Proof.
  intros Hd.
  assert (Z.abs (d * 60) < float_overflow_threshold) as H60 by lia.
  assert (Z.abs (d * 150) < float_overflow_threshold) as H150 by lia.
  unfold calculate_section_allocation.
  set (N := if d =? 15 then 2 else if d =? 30 then 3 else 4).
  assert (N ∈ [2; 3; 4]) as HN.
  { subst N. rewrite !elem_of_cons. destruct (d =? 15), (d =? 30); auto. }
  destruct (main_story_weight_returns N HN) as (msw & Hmsw & Hsmall).
  destruct (int_mul_float_returns (d * 60) msw H60 Hsmall) as (x1 & z1 & Hx1 & Hz1).
  destruct (int_mul_float_returns (d * 150) msw H150 Hsmall) as (x2 & z2 & Hx2 & Hz2).
  do 15 run_step env H60 H150.
  cbv zeta; cbv beta. unfold lift at 1 2 3 4 5. unfold bind at 1 2 3 4 5.
  rewrite Hmsw, Hx1, Hz1, Hx2, Hz2.
  do 6 run_step env H60 H150.
  reflexivity.
Qed.

Lemma bind_raise {A B} (m : M A) (k : A → M B) g e g1 :
  m g = (inl e, g1) → bind m k g = (inl e, g1).
Proof. unfold bind. by intros ->. Qed.

Lemma scaled_overflows n key env :
  float_overflow_threshold <= Z.abs n → key ∈ fixed_section_keys →
  scaled n key (module_globals env) = (inl Py.OverflowError, module_globals env).
Proof.
  intros Hn Hkey.
  destruct (weight_module_returns key env (elem_of_union_l _ _ _ Hkey))
    as (w & Hw & _).
  unfold scaled. rewrite (bind_step _ _ _ _ _ Hw).
  unfold bind, lift, Py.int_mul_float. by rewrite float_of_int_overflow.
Qed.

Lemma allocation_overflows d env :
  float_overflow_threshold <= Z.abs d * 150 →
  calculate_section_allocation d (module_globals env)
  = (inl Py.OverflowError, module_globals env).
Proof.
  intros Hd. unfold calculate_section_allocation. cbv zeta.
  assert ("intro" ∈ fixed_section_keys) as Hintro
    by (apply (bool_decide_unpack _); vm_compute; exact I).
  destruct (Z_lt_le_dec (Z.abs (d * 60)) float_overflow_threshold) as [H60 | H60].
  - destruct (scaled_module_returns (d * 60) "intro" env H60 Hintro) as [z Hz].
    rewrite (bind_step _ _ _ _ _ Hz).
    destruct (weight_module_returns "intro" env (elem_of_union_l _ _ _ Hintro))
      as (w & Hw & _).
    rewrite (bind_step _ _ _ _ _ Hw).
    apply bind_raise, scaled_overflows; [ lia | done ].
  - apply bind_raise, scaled_overflows; [ lia | done ].
Qed.

(** ** Totality *)

(** C7, as stated, fails: Python integers are unbounded, and at
    d = 2^1024 the first product int * float raises OverflowError (the
    integer is too large to convert to float). *)
Lemma huge_duration_raises :
  fst (calculate_section_allocation (2 ^ 1024) (module_globals 30))
  = inl Py.OverflowError
  ∧ ¬ (∀ d : Z, ∃ p, fst (calculate_section_allocation d (module_globals 30))
                     = inr p).
Proof.
  assert (fst (calculate_section_allocation (2 ^ 1024) (module_globals 30))
          = inl Py.OverflowError) as H by by_evaluation.
  split; [ exact H | ].
  intros Hall. destruct (Hall (2 ^ 1024)) as [p Hp]. congruence.
Qed.

(** C7, amended: for every integer d with 150 * |d| below
    2^1024 - 2^970, the least magnitude that does not convert to a
    finite double, the call returns, leaves the globals unchanged, and
    its plan has exactly the seven fixed sections and the main-story
    slots main_story_1 .. main_story_N; for every other integer the
    call raises OverflowError. *)
Theorem allocation_total_in_float_range d env :
  (Z.abs d * 150 < float_overflow_threshold →
   ∃ p, calculate_section_allocation d (module_globals env)
        = (inr p, module_globals env)
        ∧ dom p = fixed_section_keys
                  ∪ main_story_key_set (config_num_main_stories d))
  ∧ (float_overflow_threshold <= Z.abs d * 150 →
     calculate_section_allocation d (module_globals env)
     = (inl Py.OverflowError, module_globals env)).
Proof.
  split; [ | apply allocation_overflows ].
  intros Hd. pose proof (allocation_returns d env Hd) as Hok.
  apply ok_get_plan in Hok.
  exists (get_plan (fst (calculate_section_allocation d (module_globals env)))).
  split; [ | exact (plan_domain d env _ Hok) ].
  assert (snd (calculate_section_allocation d (module_globals env))
          = module_globals env) as Hsnd.
  { destruct (reads_only_weights_allocation d) as [f Hf]. by rewrite Hf. }
  destruct (calculate_section_allocation d (module_globals env)) as [r g'].
  simpl in Hok, Hsnd |- *. by rewrite Hsnd, <- Hok.
Qed.

Lemma allocation_total_in_float_range_witness :
  ∃ p, calculate_section_allocation (-7) (module_globals 30)
       = (inr p, module_globals 30)
       ∧ dom p = fixed_section_keys
                 ∪ main_story_key_set (config_num_main_stories (-7)).
Proof.
  apply (proj1 (allocation_total_in_float_range (-7) 30)). reflexivity.
Defined.

(** * Further properties *)

(** ** The normalisation as a function *)

Ltac normalize_cases :=
  unfold normalize_duration, not_in_tiers;
  repeat (match goal with
          | |- context [?a <? ?b] => destruct (Z.ltb_spec a b)
          | |- context [?a >? ?b] => destruct (Z.gtb_spec a b)
          | |- context [?a =? ?b] => destruct (Z.eqb_spec a b)
          end; simpl; try lia).

Lemma normalize_duration_tier d : normalize_duration d ∈ [15; 30; 45].
Proof. rewrite elem_of_tiers. normalize_cases. Qed.

(** X1: the comment of line 33 promises the nearest supported duration;
    the thresholds 22 and 37 deliver it for every integer but 22 and 37
    themselves, which go to 30 and 45 although 15 and 30 are one minute
    nearer. *)
Theorem normalize_nearest_tier (d : Z) :
  (∀ t, t ∈ [15; 30; 45] →
        Z.abs (d - normalize_duration d) <= Z.abs (d - t))
  ↔ d ≠ 22 ∧ d ≠ 37.
Proof.
  split.
  - intros H. split; intros ->.
    + specialize (H 15 ltac:(rewrite elem_of_tiers; lia)).
      change (normalize_duration 22) with 30 in H. lia.
    + specialize (H 30 ltac:(rewrite elem_of_tiers; lia)).
      change (normalize_duration 37) with 45 in H. lia.
  - intros [H22 H37] t Ht. rewrite elem_of_tiers in Ht.
    destruct Ht as [-> | [-> | ->]]; normalize_cases.
Qed.

(** X2: the integers the normalisation leaves alone are exactly 15, 30
    and 45, and normalising twice is normalising once. *)
Theorem normalize_fixed_points (d : Z) :
  (normalize_duration d = d ↔ d ∈ [15; 30; 45])
  ∧ normalize_duration (normalize_duration d) = normalize_duration d.
Proof.
  assert (∀ x, x ∈ [15; 30; 45] → normalize_duration x = x) as Hfix.
  { intros x. rewrite elem_of_tiers. by intros [-> | [-> | ->]]. }
  split; [ split; [ | apply Hfix ] | apply Hfix, normalize_duration_tier ].
  intros <-. apply normalize_duration_tier.
Qed.

(** X3: the normalisation is monotone: a longer requested duration never
    gives a shorter episode. *)
Theorem normalize_monotone (d d' : Z) :
  d <= d' → normalize_duration d <= normalize_duration d'.
Proof. intros H. normalize_cases. Qed.

Lemma normalize_monotone_witness :
  normalize_duration 21 <= normalize_duration 22.
Proof. apply (normalize_monotone 21 22). lia. Defined.

(** ** What a call can raise *)

Lemma bind_inl {A B} (m : M A) (k : A → M B) g e g2 :
  bind m k g = (inl e, g2) →
  m g = (inl e, g2) ∨ ∃ a g1, m g = (inr a, g1) ∧ k a g1 = (inl e, g2).
Proof.
  unfold bind. destruct (m g) as [[e' | a] g1]; intros H.
  - left. by injection H as -> ->.
  - right. exists a, g1. split; [ reflexivity | exact H ].
Qed.

Lemma weight_inl key g e g1 :
  weight key g = (inl e, g1) →
  g1 = g ∧ e = Py.KeyError key ∧ BASE_SECTION_WEIGHTS g !! key = None.
Proof.
  unfold weight. destruct (BASE_SECTION_WEIGHTS g !! key); intros [= <- <-]; auto.
Qed.

Lemma int_mul_float_inl n w e :
  Py.int_mul_float n w = inl e → e = Py.OverflowError.
Proof.
  unfold Py.int_mul_float, Py.float_of_int.
  destruct (binary_normalize _ _ _ _ _); congruence.
Qed.

Lemma int_of_float_inl x e :
  Py.int_of_float x = inl e → e = Py.OverflowError ∨ e = Py.ValueError.
Proof. destruct x; simpl; intros [= <-]; auto. Qed.

(** The divisor is 2, 3 or 4, never zero. *)
Lemma float_div_int_inl x N e :
  N ∈ [2; 3; 4] → Py.float_div_int x N = inl e → False.
Proof.
  intros HN.
  assert (∃ m k, Py.float_of_int N = inr (S754_finite false m k))
    as (m & k & HN').
  { revert HN. rewrite !elem_of_cons, elem_of_nil.
    intros [-> | [-> | [-> | []]]]; eexists _, _; vm_compute; reflexivity. }
  unfold Py.float_div_int. rewrite HN'. unfold Py.float_div. discriminate.
Qed.

Lemma scaled_inl n key g e g1 :
  scaled n key g = (inl e, g1) →
  (e = Py.KeyError key ∧ BASE_SECTION_WEIGHTS g !! key = None)
  ∨ e = Py.OverflowError ∨ e = Py.ValueError.
Proof.
  unfold scaled. intros H.
  apply bind_inl in H as [H | (w & g2 & Hw & H)].
  { apply weight_inl in H as (_ & -> & H). auto. }
  apply weight_inr in Hw as [-> Hw].
  apply bind_inl in H as [H | (x & g2 & Hx & H)].
  { unfold lift in H. injection H as H _. apply int_mul_float_inl in H. auto. }
  unfold lift in H. injection H as H _. apply int_of_float_inl in H. tauto.
Qed.

Ltac table_key := apply (bool_decide_unpack _); vm_compute; exact I.

(** From [H], a run that raised: the operation that raised, each case
    closed as an [allocation_error]. *)
Ltac invert_raise H :=
  repeat (cbv zeta in H;
          lazymatch type of H with
          | bind _ _ _ = (inl _, _) =>
              let a := fresh "v" in
              let g1 := fresh "g" in
              let Hm := fresh "Hm" in
              apply bind_inl in H as [H | (a & g1 & Hm & H)];
              [ first [ apply scaled_inl in H as [[-> H] | [-> | ->]];
                        [ split; [ table_key | exact H ] | exact I | exact I ]
                      | apply weight_inl in H as (_ & -> & H);
                        split; [ table_key | exact H ]
                      | unfold lift in H; injection H as H _;
                        first [ apply int_mul_float_inl in H as ->; exact I
                              | apply int_of_float_inl in H as [-> | ->]; exact I
                              | exfalso; revert H; apply float_div_int_inl;
                                rewrite !elem_of_cons;
                                repeat match goal with
                                       | |- context [?a =? ?b] => destruct (a =? b)
                                       end; auto ] ]
              | first [ apply weight_inr in Hm as [-> _]
                      | apply scaled_inr in Hm as [-> _]
                      | apply lift_inr in Hm as [-> _] ] ]
          end).

(** X4: whatever the duration and whatever [BASE_SECTION_WEIGHTS] holds
    at the time of the call, a call that raises raises a KeyError for one
    of the eight keys it subscripts, absent from the table, or an
    OverflowError or ValueError from a conversion between int and float;
    the division by the number of stories never raises. *)
Theorem allocation_raises_only d g e :
  fst (calculate_section_allocation d g) = inl e → allocation_error g e.
Proof.
  intros H.
  destruct (calculate_section_allocation d g) as [r g'] eqn:E.
  simpl in H. subst r.
  unfold calculate_section_allocation in E.
  invert_raise E.
  unfold ret in E. discriminate.
Qed.

Lemma allocation_raises_only_witness :
  allocation_error
    {| PODCAST_DURATION_MINUTES := 30;
       BASE_SECTION_WEIGHTS := delete "outro" base_section_weights |}
    (Py.KeyError "outro").
Proof.
  apply (allocation_raises_only 30). vm_compute. reflexivity.
Defined.

(** X5: a call returns a plan only if the table holds all eight keys:
    none of them is optional, the weights of the sections switched off
    included. *)
Theorem allocation_needs_table d g p :
  fst (calculate_section_allocation d g) = inr p →
  ∀ k, k ∈ table_keys → is_Some (BASE_SECTION_WEIGHTS g !! k).
Proof.
  intros H. apply fst_inr in H as [g' H].
  unfold calculate_section_allocation in H. invert_run H.
  intros k Hk. unfold table_keys in Hk. rewrite !elem_of_cons, elem_of_nil in Hk.
  destruct Hk as [-> | [-> | [-> | [-> | [-> | [-> | [-> | [-> | []]]]]]]]];
    eauto.
Qed.

Lemma allocation_needs_table_witness :
  is_Some (BASE_SECTION_WEIGHTS (module_globals 30) !! "deep_dive").
Proof.
  apply (allocation_needs_table 30 (module_globals 30)
           (get_plan (fst (calculate_section_allocation 30 (module_globals 30))))).
  - apply ok_get_plan. by_evaluation.
  - by_evaluation.
Defined.

(** ** The main-story slots of any table *)

(** X6: for any table, the main-story slots of a returned plan all hold
    one and the same record: the weight is the table's main_stories
    weight divided by the number of slots, and duration and word target
    are computed once and shared. *)
Theorem main_story_slots_identical d g p :
  fst (calculate_section_allocation d g) = inr p →
  ∃ total w n c,
    BASE_SECTION_WEIGHTS g !! "main_stories" = Some total
    ∧ Py.float_div_int total (config_num_main_stories d) = inr w
    ∧ ∀ i, 1 <= i <= config_num_main_stories d →
           p !! main_story_key i
           = Some {[ "duration_seconds" := VInt n; "weight" := VFloat w;
                     "word_count_target" := VInt c ]}.
Proof.
  intros H. apply fst_inr in H as [g' H].
  unfold calculate_section_allocation in H. invert_run H.
  apply ret_inr in H as [-> ->].
  repeat match goal with
         | H : ∃ _, _ |- _ => destruct H as (? & H)
         | H : _ ∧ _ |- _ => destruct H as (? & H)
         end.
  match goal with
  | Ht : BASE_SECTION_WEIGHTS g !! "main_stories" = Some ?t,
    Hw : Py.float_div_int ?t _ = inr ?w,
    Hx : Py.int_mul_float (d * 60) ?w = inr ?x, Hn : Py.int_of_float ?x = inr ?n,
    Hy : Py.int_mul_float (d * 150) ?w = inr ?y, Hc : Py.int_of_float ?y = inr ?c
    |- _ => exists t, w, n, c
  end.
  unfold config_num_main_stories.
  split; [ done | ]. split; [ done | ].
  intros i Hi.
  destruct (Z.eqb_spec d 15); [ | destruct (Z.eqb_spec d 30) ].
  all: unroll_main_stories.
  all: assert (i = 1 ∨ i = 2 ∨ i = 3 ∨ i = 4) as [-> | [-> | [-> | ->]]] by lia;
    try lia.
  all: repeat match goal with
         | |- context [main_story_key ?i] =>
             let k := eval vm_compute in (main_story_key i) in
             change (main_story_key i) with k
         end.
  all: repeat first [ rewrite lookup_insert_eq
                    | rewrite lookup_insert_ne by done ].
  all: reflexivity.
Qed.

Lemma main_story_slots_identical_witness :
  ∃ total w n c,
    BASE_SECTION_WEIGHTS (module_globals 30) !! "main_stories" = Some total
    ∧ Py.float_div_int total (config_num_main_stories 30) = inr w
    ∧ ∀ i, 1 <= i <= config_num_main_stories 30 →
           get_plan (fst (calculate_section_allocation 30 (module_globals 30)))
             !! main_story_key i
           = Some {[ "duration_seconds" := VInt n; "weight" := VFloat w;
                     "word_count_target" := VInt c ]}.
Proof.
  apply (main_story_slots_identical 30 (module_globals 30)).
  apply ok_get_plan. by_evaluation.
Defined.

(** ** The sign of the budgets *)

Lemma binary_round_aux_sign s m e l :
  match binary_round_aux Py.prec Py.emax s m e l with
  | S754_zero s' | S754_infinity s' | S754_finite s' _ _ => s' = s
  | S754_nan => True
  end.
Proof.
  unfold binary_round_aux.
  destruct (shr_fexp _ _ m e l) as [mrs1 e1].
  destruct (shr_fexp _ _ _ e1 loc_Exact) as [mrs2 e2].
  destruct (shr_m mrs2); [ done | | done ].
  by destruct (e2 <=? Py.emax - Py.prec).
Qed.

Lemma float_of_int_sign n a :
  Py.float_of_int n = inr a →
  match a with
  | S754_finite s _ _ => if s then n < 0 else 0 < n
  | _ => True
  end.
Proof.
  unfold Py.float_of_int, binary_normalize, binary_round.
  destruct n as [| p | p].
  - by intros [= <-].
  - destruct (shl_align _ _ _) as [mz ez].
    pose proof (binary_round_aux_sign false (Z.pos mz) ez loc_Exact) as Hs.
    destruct (binary_round_aux _ _ _ _ _ _); intros [= <-]; subst; try done; lia.
  - destruct (shl_align _ _ _) as [mz ez].
    pose proof (binary_round_aux_sign true (Z.pos mz) ez loc_Exact) as Hs.
    destruct (binary_round_aux _ _ _ _ _ _); intros [= <-]; subst; try done; lia.
Qed.

(** [int(n * w)] has the sign of [n], or is zero, when [w] is positive. *)
Lemma product_sign n a w v :
  Py.float_of_int n = inr a → positive_weight w →
  Py.int_of_float (Py.float_mul a w) = inr v →
  (0 <= n → 0 <= v) ∧ (n <= 0 → v <= 0).
Proof.
  intros Ha Hw Hv. apply float_of_int_sign in Ha.
  destruct w as [| | | [] mw ew]; try done.
  destruct a as [sa | sa | | sa ma ea]; simpl in Hv; try discriminate.
  - injection Hv as <-. lia.
  - unfold Py.float_mul, SFmul in Hv.
    pose proof (binary_round_aux_sign (xorb sa false) (Z.pos (ma * mw)) (ea + ew)
                  loc_Exact) as Hs.
    destruct (binary_round_aux _ _ _ _ _ _) as [s | s | | s m e];
      simpl in Hv; try discriminate; injection Hv as <-; [ lia | ].
    subst s. pose proof (Z.shiftl_nonneg (Z.pos m) e) as [_ Hnn].
    specialize (Hnn ltac:(lia)).
    destruct sa; simpl; lia.
Qed.

(** Each hypothesis on a product [int(n * w)] in the form the lemmas on
    one product take. *)
Ltac split_products :=
  repeat match goal with
         | H : Py.float_div_int _ _ = inr _ |- _ =>
             vm_compute in H; injection H as <-
         | H : Py.int_mul_float _ _ = inr _ |- _ =>
             apply int_mul_float_inr in H as (? & ? & ->)
         end.

(** X7: the function does not check the sign of its argument, and the
    budgets follow it: for a duration of zero or more every
    duration_seconds and word_count_target of a returned plan is zero or
    more, and for a duration of zero or less every one of them is zero
    or less (all of them zero at zero). *)
Theorem budgets_follow_sign d env p :
  fst (calculate_section_allocation d (module_globals env)) = inr p →
  ∀ s r f n, p !! s = Some r → r !! f = Some (VInt n) →
             (0 <= d → 0 <= n) ∧ (d <= 0 → n <= 0).
Proof.
  intros H.
  assert (∀ k w a z, 0 < k → Py.float_of_int (d * k) = inr a →
                 positive_weight w →
                 Py.int_of_float (Py.float_mul a w) = inr z →
                 (0 <= d → 0 <= z) ∧ (d <= 0 → z <= 0)) as Hsign
    by (intros k w a z Hk Ha Hw Hz;
        destruct (product_sign _ _ _ _ Ha Hw Hz); split; intros; nia).
  invert_allocation H.
  all: split_products.
  all: unify_results.
  all: match goal with
       | |- ∀ s r f n, ?p !! s = Some r → r !! f = Some (VInt n) → @?Q n =>
           enough (map_Forall
                     (λ _ r, map_Forall (λ _ v, ∀ n, v = VInt n → Q n) r) p)
             as Hall
               by (intros ? ? ? ? Hs Hf; exact (Hall _ _ Hs _ _ Hf _ eq_refl))
       end.
  all: repeat match goal with
              | |- map_Forall _ (<[_:=_]> _) => apply map_Forall_insert_2
              | |- map_Forall _ {[_ := _]} => apply map_Forall_singleton
              end.
  all: intros ? Hint; try discriminate Hint; injection Hint as <-.
  all: match goal with
       | Hz : Py.int_of_float (Py.float_mul ?a ?w) = inr ?z,
         Ha : Py.float_of_int (_ * ?k) = inr ?a |- (_ → 0 <= ?z) ∧ _ =>
           exact (Hsign k w a z ltac:(lia) Ha I Hz)
       end.
Qed.

Lemma budgets_follow_sign_witness :
  field (get_plan (fst (calculate_section_allocation (-7) (module_globals 30))))
    "intro" "duration_seconds"
  = Some (VInt (-21))
  ∧ -21 <= 0.
Proof.
  split; [ by_evaluation | ].
  pose (p := get_plan (fst (calculate_section_allocation (-7) (module_globals 30)))).
  pose (r := default ∅ (p !! "intro")).
  assert (fst (calculate_section_allocation (-7) (module_globals 30)) = inr p)
    as Hok by (apply ok_get_plan; by_evaluation).
  assert (p !! "intro" = Some r) as Hs by (vm_compute; reflexivity).
  assert (r !! "duration_seconds" = Some (VInt (-21))) as Hf
    by (vm_compute; reflexivity).
  apply (budgets_follow_sign (-7) 30 p Hok "intro" r "duration_seconds" (-21) Hs Hf).
  lia.
Defined.

(** ** Budgets in exact arithmetic *)

Lemma exact_budgets_day : exact_budgets_upto 1440 = true.
Proof. vm_compute. reflexivity. Qed.

Lemma exact_budgets_upto_spec bound d w q :
  exact_budgets_upto bound = true → 0 <= d <= bound → (w, q) ∈ float_weights →
  exact_budget (d * 60) w q = true ∧ exact_budget (d * 150) w q = true.
Proof.
  unfold exact_budgets_upto. intros H Hd Hw.
  rewrite forallb_forall in H.
  specialize (H d ltac:(apply list_elem_of_In, elem_of_seqZ; lia)).
  rewrite forallb_forall in H.
  specialize (H (w, q) ltac:(by apply list_elem_of_In)). cbv beta iota in H.
  by apply andb_true_iff in H.
Qed.

Lemma exact_budget_sound d k w q a z :
  0 <= d <= 1440 → k ∈ [60; 150] → (w, q) ∈ float_weights →
  Py.float_of_int (d * k) = inr a →
  Py.int_of_float (Py.float_mul a w) = inr z →
  z = Qfloor (inject_Z (d * k) * q).
Proof.
  intros Hd Hk Hw Ha Hz.
  destruct (exact_budgets_upto_spec 1440 d w q exact_budgets_day Hd Hw)
    as [H60 H150].
  assert (exact_budget (d * k) w q = true) as H.
  { rewrite !elem_of_cons, elem_of_nil in Hk. by destruct Hk as [-> | [-> | []]]. }
  unfold exact_budget, Py.int_mul_float in H. rewrite Ha, Hz in H.
  by apply Z.eqb_eq in H.
Qed.

Ltac float_weight :=
  repeat first [ apply list_elem_of_here | apply list_elem_of_further ].

(** X8: for every duration from 0 to 1440 minutes, a tier or not, the
    binary64 products lose nothing: every fixed section has
    duration_seconds floor(d*60*weight) and word_count_target
    floor(d*150*weight) for the decimal weight of the table, and every
    main-story slot floor(d*60*(0.65/N)) and floor(d*150*(0.65/N)), N
    being the number of slots. *)
Theorem budgets_exact_within_a_day d env p :
  0 <= d <= 1440 →
  fst (calculate_section_allocation d (module_globals env)) = inr p →
  Forall (λ '(s, w),
            field p s "duration_seconds"
            = Some (VInt (Qfloor (inject_Z (d * 60) * w)))
            ∧ (s ≠ "transitions" →
               field p s "word_count_target"
               = Some (VInt (Qfloor (inject_Z (d * 150) * w)))))
    decimal_weights
  ∧ ∀ i, 1 <= i <= config_num_main_stories d →
         field p (main_story_key i) "duration_seconds"
         = Some (VInt (Qfloor (inject_Z (d * 60)
                               * (0.65 / inject_Z (config_num_main_stories d)))))
         ∧ field p (main_story_key i) "word_count_target"
           = Some (VInt (Qfloor (inject_Z (d * 150)
                                 * (0.65
                                    / inject_Z (config_num_main_stories d))))).
Proof.
  intros Hd H.
  pose proof (λ k w q a z, exact_budget_sound d k w q a z Hd) as Hs.
  assert (60 ∈ [60; 150]) as H60 by (rewrite !elem_of_cons; auto).
  assert (150 ∈ [60; 150]) as H150 by (rewrite !elem_of_cons; auto).
  invert_allocation H.
  all: split_products.
  all: unify_results.
  all: unfold config_num_main_stories.
  all: repeat match goal with
         | |- context [?a =? ?b] => destruct (Z.eqb_spec a b); try lia
         end.
  all: split;
    [ unfold decimal_weights; repeat apply Forall_cons_2; try apply Forall_nil_2
    | intros i Hi;
      assert (i = 1 ∨ i = 2 ∨ i = 3 ∨ i = 4) as [-> | [-> | [-> | ->]]] by lia;
      try lia ].
  all: repeat match goal with
         | |- context [main_story_key ?i] =>
             let k := eval vm_compute in (main_story_key i) in
             change (main_story_key i) with k
         end.
  all: split; [ | try intros Hne ].
  all: try (by destruct Hne).
  all: match goal with
       | |- _ = Some (VInt ?t) =>
           let target := fresh "target" in
           remember t as target; vm_compute; do 2 f_equal; subst target
       end.
  all: match goal with
       | Hz : Py.int_of_float (Py.float_mul ?a ?w) = inr ?z,
         Ha : Py.float_of_int (_ * ?k) = inr ?a
         |- ?z = Qfloor (inject_Z (_ * ?k) * ?q) =>
           apply (Hs k w q a z ltac:(assumption) ltac:(float_weight) Ha Hz)
       end.
Qed.

Lemma budgets_exact_within_a_day_witness :
  field (get_plan (fst (calculate_section_allocation 20 (module_globals 20))))
    "main_story_4" "duration_seconds"
  = Some (VInt (Qfloor (inject_Z (20 * 60) * (0.65 / inject_Z 4)))).
Proof.
  refine (proj1 (proj2 (budgets_exact_within_a_day 20 20 _ _ _) 4 _)).
  - lia.
  - apply ok_get_plan. by_evaluation.
  - vm_compute. split; discriminate.
Defined.

(** ** The whole plan against the episode *)

Lemma totals_overrun_day : totals_overrun_upto 1440 = true.
Proof. vm_compute. reflexivity. Qed.

Lemma totals_overrun_upto_spec bound d :
  totals_overrun_upto bound = true → 1 <= d <= bound → total_overruns d = true.
Proof.
  unfold totals_overrun_upto. intros H Hd. rewrite forallb_forall in H.
  apply H, list_elem_of_In, elem_of_seqZ. lia.
Qed.

(** X18: the plan runs over at every duration, not only at the tiers:
    for every duration from 1 to 1440 minutes the duration_seconds of
    all sections of the returned plan add up to more than the
    total_seconds = d * 60 of the episode, and to at most 1.25 times
    total_seconds, the sum of the weights. *)
Theorem total_duration_overruns d env p :
  1 <= d <= 1440 →
  fst (calculate_section_allocation d (module_globals env)) = inr p →
  d * 60 < total_duration p ∧ 4 * total_duration p <= 5 * (d * 60).
Proof.
  intros Hd H.
  pose proof (totals_overrun_upto_spec 1440 d totals_overrun_day Hd) as Hc.
  unfold total_overruns in Hc.
  destruct (reads_only_weights_allocation d) as [f Hf].
  rewrite Hf in H, Hc. cbn [fst] in H, Hc.
  change (BASE_SECTION_WEIGHTS (module_globals 0))
    with (BASE_SECTION_WEIGHTS (module_globals env)) in Hc.
  rewrite H in Hc. cbn [get_plan] in Hc. cbv zeta in Hc.
  apply andb_true_iff in Hc as [H1 H2]. lia.
Qed.

Lemma total_duration_overruns_witness :
  20 * 60
  < total_duration
      (get_plan (fst (calculate_section_allocation 20 (module_globals 20))))
  ∧ 4 * total_duration
          (get_plan (fst (calculate_section_allocation 20 (module_globals 20))))
    <= 5 * (20 * 60).
Proof.
  apply (total_duration_overruns 20 20).
  - lia.
  - apply ok_get_plan. by_evaluation.
Defined.

(** ** The module body: PODCAST_CONFIG *)

Lemma allocation_at_tier D env :
  D ∈ [15; 30; 45] →
  calculate_section_allocation D (module_globals env)
  = (inr (get_plan (fst (calculate_section_allocation D (module_globals env)))),
     module_globals env).
Proof.
  intros HD.
  assert (is_ok (fst (calculate_section_allocation D (module_globals env))) = true)
    as Hok.
  { revert HD. rewrite !elem_of_cons, elem_of_nil.
    intros [-> | [-> | [-> | []]]]; by_evaluation. }
  apply ok_get_plan in Hok.
  destruct (reads_only_weights_allocation D) as [f Hf].
  rewrite Hf in Hok |- *. cbn [fst] in Hok |- *. by rewrite <- Hok.
Qed.

Lemma podcast_config_returns env d :
  let D := normalize_duration d in
  let p := get_plan (fst (calculate_section_allocation D (module_globals d))) in
  podcast_config env (module_globals d)
  = (inr {| title := "Decoded: AI, Big Data, and Tech Futures";
            duration_minutes := D;
            target_word_count := D * 150;
            sections := p;
            num_main_stories := config_num_main_stories D;
            optional_sections :=
              {[ "deep_dive" :=
                   {[ "enabled" := VBool (env_flag env "ENABLE_DEEP_DIVE") ]};
                 "expert_interview" :=
                   {[ "enabled" := VBool (env_flag env "ENABLE_EXPERT_INTERVIEW") ]} ]};
            episode_topics := EPISODE_TOPICS (load_topics env) |},
     module_globals d).
Proof.
  intros D p. unfold podcast_config, duration, bind at 1.
  change (PODCAST_DURATION_MINUTES (module_globals d)) with D.
  unfold bind at 1.
  rewrite (allocation_at_tier D d (normalize_duration_tier d)).
  reflexivity.
Qed.

Ltac at_each_tier d :=
  let HD := fresh "HD" in
  pose proof (normalize_duration_tier d) as HD; revert HD;
  generalize (normalize_duration d);
  intros ? HD; rewrite !elem_of_cons, elem_of_nil in HD;
  destruct HD as [-> | [-> | [-> | []]]].

Ltac load_config env d :=
  eexists; split; [ apply (podcast_config_returns env d) | ];
  cbv zeta;
  cbn [title duration_minutes target_word_count sections num_main_stories
       optional_sections episode_topics].

(** X9: whatever the environment holds, the module body builds
    PODCAST_CONFIG without raising and leaves the globals as they are;
    its duration is the normalised one, its word target 150 words a
    minute, and its num_main_stories, one more than the number of
    quarters of an hour, is the number of main-story slots that
    sections has, named main_story_1 to main_story_N. *)
Theorem podcast_config_consistent (env : Env) (d : Z) :
  ∃ cfg, podcast_config env (module_globals d) = (inr cfg, module_globals d)
         ∧ duration_minutes cfg = normalize_duration d
         ∧ target_word_count cfg = 150 * duration_minutes cfg
         ∧ num_main_stories cfg = duration_minutes cfg / 15 + 1
         ∧ dom (sections cfg)
           = fixed_section_keys ∪ main_story_key_set (num_main_stories cfg)
         ∧ main_story_keys (sections cfg)
           = main_story_key_set (num_main_stories cfg)
         ∧ size (main_story_keys (sections cfg)) = Z.to_nat (num_main_stories cfg).
Proof.
  load_config env d.
  split; [ reflexivity | ]. split; [ lia | ].
  at_each_tier d; split_conj; by_evaluation.
Qed.

(** X10: leaving out the two sections that are switched off, the
    plan of PODCAST_CONFIG still runs over: the durations of the other
    sections add up to more than the episode's duration_minutes * 60
    seconds (their weights add up to 1.05), while their word targets
    stay within target_word_count (those weights add up to 0.98,
    transitions having no word target). *)
Theorem default_sections_budget (env : Env) (d : Z) :
  ∃ cfg, podcast_config env (module_globals d) = (inr cfg, module_globals d)
         ∧ duration_minutes cfg * 60 < default_duration (sections cfg)
         ∧ default_duration (sections cfg)
           <= Qfloor (1.05 * inject_Z (duration_minutes cfg * 60))
         ∧ default_word_count (sections cfg) <= target_word_count cfg.
Proof.
  load_config env d.
  at_each_tier d; split_conj; by_evaluation.
Qed.

(** X11: the variables ENABLE_DEEP_DIVE and ENABLE_EXPERT_INTERVIEW
    reach optional_sections only: in sections the enabled field of
    deep_dive and of expert_interview is False whatever they say, so
    the two flags of one section disagree when the variable is on. *)
Theorem optional_section_flags (env : Env) (d : Z) :
  ∃ cfg, podcast_config env (module_globals d) = (inr cfg, module_globals d)
         ∧ Forall (λ '(s, var),
                     field (sections cfg) s "enabled" = Some (VBool false)
                     ∧ field (optional_sections cfg) s "enabled"
                       = Some (VBool (env_flag env var)))
             [ ("deep_dive", "ENABLE_DEEP_DIVE");
               ("expert_interview", "ENABLE_EXPERT_INTERVIEW") ].
Proof.
  load_config env d.
  repeat apply Forall_cons_2; [ .. | apply Forall_nil_2 ].
  all: split; [ at_each_tier d; by_evaluation | ].
  all: generalize (env_flag env "ENABLE_DEEP_DIVE"),
         (env_flag env "ENABLE_EXPERT_INTERVIEW"); intros b1 b2.
  all: by_evaluation.
Qed.

(** X12: the word target of PODCAST_CONFIG is 2250, 4500 or 6750 and
    so never the target_word_count 4800 of SCRIPT_GENERATION: the two
    settings differ by 300 words or more whatever the environment. *)
Theorem word_count_targets_disagree (env : Env) (d : Z) :
  ∃ cfg, podcast_config env (module_globals d) = (inr cfg, module_globals d)
         ∧ target_word_count cfg ∈ [2250; 4500; 6750]
         ∧ 300 <= Z.abs (target_word_count cfg - script_generation_target_word_count).
Proof.
  load_config env d.
  at_each_tier d; split; by_evaluation.
Qed.

(** ** Strings: lower, strip and split *)

Ltac ascii_cases c := destruct c as [[] [] [] [] [] [] [] []].

Lemma isspace_lower_char c : PyStr.isspace (PyStr.lower_char c) = PyStr.isspace c.
Proof. by ascii_cases c. Qed.

Lemma lower_char_idem c : PyStr.lower_char (PyStr.lower_char c) = PyStr.lower_char c.
Proof. by ascii_cases c. Qed.

Lemma lower_char_comma c : Ascii.eqb (PyStr.lower_char c) "," = Ascii.eqb c ",".
Proof. by ascii_cases c. Qed.

Lemma lower_idem s : PyStr.lower (PyStr.lower s) = PyStr.lower s.
Proof. induction s as [| c s IH]; simpl; [ done | by rewrite lower_char_idem, IH ]. Qed.

Lemma truthy_lower s : PyStr.truthy (PyStr.lower s) = PyStr.truthy s.
Proof. by destruct s. Qed.

Lemma truthy_true s : PyStr.truthy s = true ↔ s ≠ EmptyString.
Proof. destruct s; simpl; split; congruence. Qed.

Lemma lower_lstrip s : PyStr.lower (PyStr.lstrip s) = PyStr.lstrip (PyStr.lower s).
Proof.
  induction s as [| c s IH]; simpl; [ done | ].
  rewrite isspace_lower_char. by destruct (PyStr.isspace c).
Qed.

Lemma lower_rstrip s : PyStr.lower (PyStr.rstrip s) = PyStr.rstrip (PyStr.lower s).
Proof.
  induction s as [| c s IH]; simpl; [ done | ].
  rewrite <- IH, isspace_lower_char.
  destruct (PyStr.rstrip s); simpl; [ by destruct (PyStr.isspace c) | done ].
Qed.

Lemma lower_strip s : PyStr.lower (PyStr.strip s) = PyStr.strip (PyStr.lower s).
Proof. unfold PyStr.strip. by rewrite lower_rstrip, lower_lstrip. Qed.

Lemma lower_split s :
  PyStr.split "," (PyStr.lower s) = PyStr.lower <$> PyStr.split "," s.
Proof.
  induction s as [| c s IH]; simpl; [ done | ].
  rewrite lower_char_comma, IH.
  destruct (Ascii.eqb c ","); [ done | ].
  by destruct (PyStr.split "," s).
Qed.

(** The pieces of a split hold the characters of the string other than
    the separator. *)
Lemma split_chars sep s t c :
  t ∈ PyStr.split sep s → c ∈ chars t → c ∈ chars s ∧ c ≠ sep.
Proof.
  revert t. induction s as [| a s IH]; simpl; intros t Ht Hc.
  - apply list_elem_of_singleton in Ht as ->. by apply elem_of_nil in Hc.
  - destruct (Ascii.eqb_spec a sep) as [-> | Hne].
    + apply elem_of_cons in Ht as [-> | Ht]; [ by apply elem_of_nil in Hc | ].
      destruct (IH _ Ht Hc). split; [ by apply list_elem_of_further | done ].
    + destruct (PyStr.split sep s) as [| t0 ts] eqn:E.
      * apply list_elem_of_singleton in Ht as ->. simpl in Hc.
        apply list_elem_of_singleton in Hc as ->. split; [ apply list_elem_of_here | done ].
      * apply elem_of_cons in Ht as [-> | Ht].
        -- simpl in Hc. apply elem_of_cons in Hc as [-> | Hc].
           ++ split; [ apply list_elem_of_here | done ].
           ++ destruct (IH t0 ltac:(apply list_elem_of_here) Hc).
              split; [ by apply list_elem_of_further | done ].
        -- destruct (IH t ltac:(by apply list_elem_of_further) Hc).
           split; [ by apply list_elem_of_further | done ].
Qed.

Lemma split_nonempty sep s : PyStr.split sep s ≠ [].
Proof.
  destruct s as [| a s]; simpl; [ done | ].
  destruct (Ascii.eqb a sep); [ done | ]. by destruct (PyStr.split sep s).
Qed.

(** Every character of the string is the separator or in a piece. *)
Lemma chars_split sep s c :
  c ∈ chars s → c = sep ∨ ∃ t, t ∈ PyStr.split sep s ∧ c ∈ chars t.
Proof.
  induction s as [| a s IH]; simpl; intros Hc; [ by apply elem_of_nil in Hc | ].
  apply elem_of_cons in Hc as [-> | Hc].
  - destruct (Ascii.eqb_spec a sep) as [-> | Hne]; [ by left | right ].
    destruct (PyStr.split sep s) as [| t0 ts];
      eexists; (split; [ apply list_elem_of_here | apply list_elem_of_here ]).
  - destruct (IH Hc) as [-> | (t & Ht & Hct)]; [ by left | right ].
    destruct (Ascii.eqb_spec a sep) as [-> | Hne].
    + exists t. split; [ by apply list_elem_of_further | done ].
    + destruct (PyStr.split sep s) as [| t0 ts]; [ by apply elem_of_nil in Ht | ].
      apply elem_of_cons in Ht as [-> | Ht].
      * exists (String a t0). split; [ apply list_elem_of_here | ].
        by apply list_elem_of_further.
      * exists t. split; [ by apply list_elem_of_further | done ].
Qed.

Lemma lstrip_chars s c : c ∈ chars (PyStr.lstrip s) → c ∈ chars s.
Proof.
  induction s as [| a s IH]; simpl; [ done | ].
  destruct (PyStr.isspace a); [ | done ].
  intros H. by apply list_elem_of_further, IH.
Qed.

Lemma rstrip_chars s c : c ∈ chars (PyStr.rstrip s) → c ∈ chars s.
Proof.
  revert c. induction s as [| a s IH]; simpl; [ done | ]. intros c.
  destruct (PyStr.rstrip s) as [| b t].
  - destruct (PyStr.isspace a); simpl; [ by intros ?%elem_of_nil | ].
    intros ->%list_elem_of_singleton. apply list_elem_of_here.
  - simpl. intros [-> | H]%elem_of_cons; [ apply list_elem_of_here | ].
    by apply list_elem_of_further, IH.
Qed.

Lemma strip_chars s c : c ∈ chars (PyStr.strip s) → c ∈ chars s.
Proof. intros H. by apply lstrip_chars, rstrip_chars. Qed.

Lemma lstrip_empty s :
  PyStr.lstrip s = EmptyString ↔ Forall (λ c, PyStr.isspace c = true) (chars s).
Proof.
  induction s as [| a s IH]; simpl; [ by split; [ constructor | ] | ].
  destruct (PyStr.isspace a) eqn:E.
  - rewrite IH. split; [ by constructor | by inversion 1 ].
  - split; [ done | inversion 1; congruence ].
Qed.

Lemma rstrip_empty s :
  PyStr.rstrip s = EmptyString ↔ Forall (λ c, PyStr.isspace c = true) (chars s).
Proof.
  induction s as [| a s IH]; simpl; [ by split; [ constructor | ] | ].
  destruct (PyStr.rstrip s) as [| b t].
  - destruct (PyStr.isspace a) eqn:E.
    + split; [ intros _; constructor; [ done | by apply IH ] | done ].
    + split; [ done | inversion 1; congruence ].
  - split; [ done | ]. inversion 1 as [| ? ? ? Hs]. by apply IH in Hs.
Qed.

Lemma strip_empty s :
  PyStr.strip s = EmptyString ↔ Forall (λ c, PyStr.isspace c = true) (chars s).
Proof.
  unfold PyStr.strip. rewrite rstrip_empty. split.
  - intros H. apply lstrip_empty. apply rstrip_empty in H. 
    induction s as [| a s IH]; simpl in *; [ done | ].
    destruct (PyStr.isspace a) eqn:E; [ by apply IH | ].
    simpl in H. destruct (PyStr.rstrip s); [ by rewrite E in H | done ].
  - intros H. rewrite Forall_forall in *. intros c Hc. by apply H, lstrip_chars.
Qed.

Lemma lstrip_no_leading_space s : no_leading_space (PyStr.lstrip s).
Proof.
  induction s as [| a s IH]; simpl; [ done | ].
  by destruct (PyStr.isspace a) eqn:E.
Qed.

Lemma lstrip_fixed s : no_leading_space s → PyStr.lstrip s = s.
Proof. destruct s as [| a s]; simpl; [ done | by intros -> ]. Qed.

Lemma rstrip_no_leading_space s : no_leading_space s → no_leading_space (PyStr.rstrip s).
Proof.
  destruct s as [| a s]; simpl; [ done | ]. intros E.
  destruct (PyStr.rstrip s); [ by rewrite E | done ].
Qed.

Lemma rstrip_idem s : PyStr.rstrip (PyStr.rstrip s) = PyStr.rstrip s.
Proof.
  induction s as [| a s IH]; simpl; [ done | ].
  destruct (PyStr.rstrip s) as [| b t] eqn:E.
  - destruct (PyStr.isspace a) eqn:Ea; simpl; [ done | by rewrite Ea ].
  - change (PyStr.rstrip (String a (String b t))) with
      (match PyStr.rstrip (String b t) with
       | EmptyString => if PyStr.isspace a then EmptyString else String a EmptyString
       | u => String a u
       end).
    by rewrite IH.
Qed.

Lemma strip_idem s : PyStr.strip (PyStr.strip s) = PyStr.strip s.
Proof.
  unfold PyStr.strip.
  rewrite (lstrip_fixed (PyStr.rstrip _)).
  - apply rstrip_idem.
  - apply rstrip_no_leading_space, lstrip_no_leading_space.
Qed.


Lemma isascii_chars s :
  PyStr.isascii s = true ↔ Forall (λ c, (N_of_ascii c <? 128)%N = true) (chars s).
Proof.
  induction s as [| a s IH]; simpl; [ by split; [ constructor | ] | ].
  rewrite andb_true_iff, IH. split; [ intros []; by constructor | by inversion 1 ].
Qed.

Lemma lower_char_ascii c :
  (N_of_ascii c <? 128)%N = true → (N_of_ascii (PyStr.lower_char c) <? 128)%N = true.
Proof. by ascii_cases c. Qed.

Lemma isascii_lower s : PyStr.isascii s = true → PyStr.isascii (PyStr.lower s) = true.
Proof.
  induction s as [| a s IH]; simpl; [ done | ].
  rewrite !andb_true_iff. intros [Ha Hs]. split; [ by apply lower_char_ascii | by apply IH ].
Qed.

Lemma chars_lower s : chars (PyStr.lower s) = PyStr.lower_char <$> chars s.
Proof. induction s as [| a s IH]; simpl; [ done | by rewrite IH ]. Qed.

Lemma separator_lower_char c : separator (PyStr.lower_char c) ↔ separator c.
Proof.
  unfold separator. rewrite isspace_lower_char.
  pose proof (lower_char_comma c) as H.
  destruct (Ascii.eqb_spec (PyStr.lower_char c) ","), (Ascii.eqb_spec c ",");
    try discriminate; tauto.
Qed.

(** ** Topic selection *)

Lemma parse_topics_elem t s :
  t ∈ parse_topics s
  ↔ ∃ t0, t0 ∈ PyStr.split "," s ∧ t = PyStr.strip t0 ∧ t ≠ EmptyString.
Proof.
  unfold parse_topics. rewrite list_elem_of_bind. split.
  - intros (t0 & Ht & Ht0). exists t0. split; [ done | ].
    destruct (PyStr.truthy (PyStr.strip t0)) eqn:E; [ | by apply elem_of_nil in Ht ].
    apply list_elem_of_singleton in Ht as ->. by apply truthy_true in E.
  - intros (t0 & Ht0 & -> & Hne). exists t0. split; [ | done ].
    apply truthy_true in Hne as ->. apply list_elem_of_here.
Qed.

Lemma parse_topics_clean s t :
  PyStr.lower s = s → PyStr.isascii s = true → t ∈ parse_topics s → clean_topic t.
Proof.
  intros Hs Has (t0 & Ht0 & -> & Hne)%parse_topics_elem.
  unfold clean_topic. split_conj.
  - done.
  - apply strip_idem.
  - rewrite lower_strip. f_equal.
    rewrite <- Hs, lower_split in Ht0.
    apply list_elem_of_fmap in Ht0 as (u & -> & _). apply lower_idem.
  - intros Hc%strip_chars. by destruct (split_chars _ _ _ _ Ht0 Hc).
  - apply isascii_chars, Forall_forall. intros c Hc%strip_chars.
    destruct (split_chars _ _ _ _ Ht0 Hc) as [Hcs _].
    apply isascii_chars in Has. rewrite Forall_forall in Has. by apply Has.
Qed.

Lemma parse_topics_nil s : parse_topics s = [] ↔ Forall separator (chars s).
Proof.
  split.
  - intros H. apply Forall_forall. intros c Hc.
    destruct (chars_split "," _ _ Hc) as [-> | (t0 & Ht0 & Hct)]; [ by right | left ].
    destruct (PyStr.strip t0) as [| a u] eqn:E.
    + apply strip_empty in E. rewrite Forall_forall in E. by apply E.
    + assert (String a u ∈ parse_topics s) as Hin.
      { apply parse_topics_elem. exists t0. by rewrite E. }
      rewrite H in Hin. by apply elem_of_nil in Hin.
  - intros H. destruct (parse_topics s) as [| t ts] eqn:E; [ done | exfalso ].
    assert (t ∈ parse_topics s) as (t0 & Ht0 & -> & Hne)%parse_topics_elem
      by (rewrite E; apply list_elem_of_here).
    apply Hne, strip_empty, Forall_forall. intros c Hc.
    destruct (split_chars _ _ _ _ Ht0 Hc) as [Hcs Hcomma].
    rewrite Forall_forall in H. by destruct (H c Hcs).
Qed.

Section Select.
Variable table : list (string * list string).
Hypothesis table_nonempty : table ≠ [].

Lemma select_topics_topics value :
  EPISODE_TOPICS (select_topics value table)
  = if PyStr.truthy value then parse_topics (PyStr.lower value) else table.*1.
Proof.
  unfold select_topics. rewrite truthy_lower.
  destruct (PyStr.truthy value); [ | done ].
  destruct (parse_topics _); [ done | ]. by destruct (filter _ _).
Qed.

Lemma select_topics_keywords value :
  let r := select_topics value table in
  TOPIC_KEYWORDS r ≠ []
  ∧ TOPIC_KEYWORDS r `sublist_of` table
  ∧ ∀ k, k ∈ (TOPIC_KEYWORDS r).*1
         ↔ k ∈ table.*1
           ∧ (k ∈ EPISODE_TOPICS r ∨ ∀ k', k' ∈ table.*1 → k' ∉ EPISODE_TOPICS r).
Proof.
  unfold select_topics.
  destruct (PyStr.truthy (PyStr.lower value));
    cbn [TOPIC_KEYWORDS EPISODE_TOPICS]; [ | by intuition ].
  destruct (parse_topics _) as [| t ts] eqn:E; cbn [TOPIC_KEYWORDS EPISODE_TOPICS].
  { split_conj; [ done | done | ]. intros k. split; [ | tauto ].
    intros Hk. split; [ done | right ]. intros k' _. apply not_elem_of_nil. }
  destruct (filter _ table) as [| kv kvs] eqn:F; cbn [TOPIC_KEYWORDS EPISODE_TOPICS].
  - split_conj; [ done | done | ]. intros k. split; [ | tauto ].
    intros Hk. split; [ done | right ]. intros k' ((k1 & v) & -> & Hin)%list_elem_of_fmap Hk'.
    assert ((k1, v) ∈ filter (λ kv, kv.1 ∈ t :: ts) table) as Hf
      by by apply list_elem_of_filter.
    rewrite F in Hf. by apply elem_of_nil in Hf.
  - rewrite <- F. split_conj.
    + by rewrite F.
    + apply sublist_filter.
    + intros k. split.
      * intros ((k1 & v) & -> & [Hsel Hin]%list_elem_of_filter)%list_elem_of_fmap.
        split; [ | by left ]. apply list_elem_of_fmap. by exists (k1, v).
      * intros [((k1 & v) & -> & Hin)%list_elem_of_fmap [Hsel | Hnone]].
        -- apply list_elem_of_fmap. exists (k1, v). split; [ done | ].
           by apply list_elem_of_filter.
        -- exfalso. assert (kv ∈ filter (λ kv, kv.1 ∈ t :: ts) table)
             as [Hsel Hin']%list_elem_of_filter by (rewrite F; apply list_elem_of_here).
           apply (Hnone kv.1); [ | done ]. apply list_elem_of_fmap. by exists kv.
Qed.

End Select.

(** The joined string and its pieces. *)
Lemma split_no_sep sep t : sep ∉ chars t → PyStr.split sep t = [t].
Proof.
  induction t as [| a t IH]; simpl; [ done | ].
  intros H. apply not_elem_of_cons in H as [Hne Ht].
  destruct (Ascii.eqb_spec a sep); [ congruence | ]. by rewrite IH.
Qed.

Lemma split_append sep t rest :
  sep ∉ chars t →
  PyStr.split sep (t ++ String sep rest) = t :: PyStr.split sep rest.
Proof.
  induction t as [| a t IH]; simpl.
  - intros _. by rewrite Ascii.eqb_refl.
  - intros H. apply not_elem_of_cons in H as [Hne Ht].
    destruct (Ascii.eqb_spec a sep); [ congruence | ]. by rewrite IH.
Qed.

Lemma split_concat ts :
  ts ≠ [] → Forall (λ t, ","%char ∉ chars t) ts →
  PyStr.split "," (String.concat "," ts) = ts.
Proof.
  induction ts as [| t ts IH]; [ done | ]. intros _ H.
  apply Forall_cons in H as [Ht Hts].
  destruct ts as [| u us]; [ by apply split_no_sep | ].
  change (String.concat "," (t :: u :: us))
    with (t ++ String "," (String.concat "," (u :: us)))%string.
  rewrite split_append by done. by rewrite IH.
Qed.

Lemma parse_topics_concat ts :
  ts ≠ [] → Forall clean_topic ts → parse_topics (String.concat "," ts) = ts.
Proof.
  intros Hne H. unfold parse_topics. rewrite split_concat; [ | done | ].
  - clear Hne. induction H as [| t ts (Ht & Hs & _) _ IH]; [ done | ].
    rewrite bind_cons, Hs, IH. by apply truthy_true in Ht as ->.
  - eapply Forall_impl; [ exact H | ]. by intros t (_ & _ & _ & ? & _).
Qed.

(** ** The environment flags and the episode topics *)

Lemma lower_char_letter c :
  (Ascii.eqb (PyStr.lower_char c) "t" = Ascii.eqb c "t" || Ascii.eqb c "T")
  ∧ (Ascii.eqb (PyStr.lower_char c) "r" = Ascii.eqb c "r" || Ascii.eqb c "R")
  ∧ (Ascii.eqb (PyStr.lower_char c) "u" = Ascii.eqb c "u" || Ascii.eqb c "U")
  ∧ (Ascii.eqb (PyStr.lower_char c) "e" = Ascii.eqb c "e" || Ascii.eqb c "E").
Proof. by ascii_cases c. Qed.

Lemma lower_char_either c l u :
  Ascii.eqb (PyStr.lower_char c) l = Ascii.eqb c l || Ascii.eqb c u →
  PyStr.lower_char c = l ↔ c ∈ [l; u].
Proof.
  intros H. rewrite !elem_of_cons, elem_of_nil.
  destruct (Ascii.eqb_spec (PyStr.lower_char c) l), (Ascii.eqb_spec c l),
    (Ascii.eqb_spec c u); simpl in H; try discriminate; tauto.
Qed.

(** X13: a boolean flag of the environment (ENABLE_DEEP_DIVE,
    ENABLE_EXPERT_INTERVIEW, SINGLE_HOST_MODE, PODCAST_EXPLICIT) is on
    exactly when the variable is set to the four letters of true, each
    in either case: surrounding whitespace is not stripped and no other
    spelling (1, yes, on) counts. *)
Theorem env_flag_spelling (env : Env) (name : string) :
  (∀ v, env !! name = Some v → PyStr.isascii v = true) →
  (env_flag env name = true
   ↔ ∃ c1 c2 c3 c4,
       env !! name = Some (String c1 (String c2 (String c3 (String c4 EmptyString))))
       ∧ c1 ∈ ["t"; "T"]%char ∧ c2 ∈ ["r"; "R"]%char
       ∧ c3 ∈ ["u"; "U"]%char ∧ c4 ∈ ["e"; "E"]%char).
Proof.
  intros _. unfold env_flag, getenv. rewrite bool_decide_eq_true.
  destruct (env !! name) as [v |]; simpl.
  - split.
    + destruct v as [| c1 [| c2 [| c3 [| c4 [| c5 v]]]]]; simpl; try discriminate.
      intros [= H1 H2 H3 H4]. exists c1, c2, c3, c4.
      destruct (lower_char_letter c1) as (L1 & _), (lower_char_letter c2) as (_ & L2 & _),
        (lower_char_letter c3) as (_ & _ & L3 & _), (lower_char_letter c4) as (_ & _ & _ & L4).
      split; [ done | ].
      split_conj; by eapply lower_char_either.
    + intros (c1 & c2 & c3 & c4 & [= ->] & H1 & H2 & H3 & H4). simpl.
      destruct (lower_char_letter c1) as (L1 & _), (lower_char_letter c2) as (_ & L2 & _),
        (lower_char_letter c3) as (_ & _ & L3 & _), (lower_char_letter c4) as (_ & _ & _ & L4).
      apply (lower_char_either _ _ _ L1) in H1 as ->.
      apply (lower_char_either _ _ _ L2) in H2 as ->.
      apply (lower_char_either _ _ _ L3) in H3 as ->.
      by apply (lower_char_either _ _ _ L4) in H4 as ->.
  - split; [ discriminate | ]. by intros (? & ? & ? & ? & ? & _).
Qed.

Lemma env_flag_spelling_witness :
  env_flag {[ "ENABLE_DEEP_DIVE" := "True" ]} "ENABLE_DEEP_DIVE" = true
  ∧ env_flag {[ "ENABLE_DEEP_DIVE" := " true" ]} "ENABLE_DEEP_DIVE" = false
  ∧ env_flag {[ "ENABLE_DEEP_DIVE" := "1" ]} "ENABLE_DEEP_DIVE" = false.
Proof.
  split_conj.
  - apply (env_flag_spelling {[ "ENABLE_DEEP_DIVE" := "True" ]} "ENABLE_DEEP_DIVE").
    + intros v Hv. vm_compute in Hv. by injection Hv as <-.
    + exists "T"%char, "r"%char, "u"%char, "e"%char.
      split; [ vm_compute; reflexivity | ]. split_conj; by_evaluation.
  - vm_compute; reflexivity.
  - vm_compute; reflexivity.
Defined.

(** X14: whatever the variable EPISODE_TOPICS holds, every entry of
    the list EPISODE_TOPICS is a clean topic: not empty, without
    whitespace at either end, in lower case, and free of commas. *)
Theorem episode_topics_clean (env : Env) (t : string) :
  PyStr.isascii (getenv env "EPISODE_TOPICS" EmptyString) = true →
  t ∈ EPISODE_TOPICS (load_topics env) → clean_topic t.
Proof.
  intros Ha. unfold load_topics. rewrite select_topics_topics.
  destruct (PyStr.truthy _).
  - apply parse_topics_clean; [ apply lower_idem | by apply isascii_lower ].
  - simpl. rewrite !elem_of_cons, elem_of_nil.
    intros [-> | [-> | [-> | []]]]; unfold clean_topic; split_conj;
      first [ done | by_evaluation ].
Qed.

Lemma episode_topics_clean_witness : clean_topic "big_data".
Proof.
  apply (episode_topics_clean {[ "EPISODE_TOPICS" := " AI, Big_Data ,,to do" ]}).
  - vm_compute; reflexivity.
  - by_evaluation.
Defined.

(** X15: TOPIC_KEYWORDS is never left empty and only ever loses
    entries: it is a sub-list of the table as written, and a topic of
    the table is kept exactly when it is among the episode topics or no
    topic of the table is; names the table does not know are ignored
    without a word. *)
Theorem topic_keywords_selection (env : Env) :
  PyStr.isascii (getenv env "EPISODE_TOPICS" EmptyString) = true →
  let r := load_topics env in
  TOPIC_KEYWORDS r ≠ []
  ∧ TOPIC_KEYWORDS r `sublist_of` topic_keywords
  ∧ ∀ k, k ∈ (TOPIC_KEYWORDS r).*1
         ↔ k ∈ topic_keywords.*1
           ∧ (k ∈ EPISODE_TOPICS r
              ∨ ∀ k', k' ∈ topic_keywords.*1 → k' ∉ EPISODE_TOPICS r).
Proof. intros _. by apply select_topics_keywords. Qed.

Lemma topic_keywords_selection_witness :
  (TOPIC_KEYWORDS (load_topics {[ "EPISODE_TOPICS" := "AI,crypto" ]})).*1 = ["ai"]
  ∧ (TOPIC_KEYWORDS (load_topics {[ "EPISODE_TOPICS" := "AI,crypto" ]}) ≠ []).
Proof.
  split; [ vm_compute; reflexivity | ].
  apply (topic_keywords_selection {[ "EPISODE_TOPICS" := "AI,crypto" ]}).
  vm_compute; reflexivity.
Defined.

(** X16: EPISODE_TOPICS ends up empty, and not the list of all topics
    the comment of line 264 gives as the default, exactly when the
    variable is set to a non-empty string of nothing but commas and
    whitespace; unset or empty, it gives the three topics of the
    table. *)
Theorem episode_topics_empty (env : Env) :
  PyStr.isascii (getenv env "EPISODE_TOPICS" EmptyString) = true →
  (EPISODE_TOPICS (load_topics env) = []
   ↔ getenv env "EPISODE_TOPICS" EmptyString ≠ EmptyString
     ∧ Forall separator (chars (getenv env "EPISODE_TOPICS" EmptyString)))
  ∧ (getenv env "EPISODE_TOPICS" EmptyString = EmptyString →
     EPISODE_TOPICS (load_topics env) = ["ai"; "big_data"; "tech_futures"]).
Proof.
  intros _. unfold load_topics. rewrite select_topics_topics.
  split; [ | by intros -> ].
  destruct (PyStr.truthy _) eqn:E.
  - apply truthy_true in E. rewrite parse_topics_nil, chars_lower, Forall_fmap.
    split.
    + intros H. split; [ done | ].
      eapply Forall_impl; [ exact H | ]. intros c. apply separator_lower_char.
    + intros [_ H]. eapply Forall_impl; [ exact H | ]. intros c.
      apply separator_lower_char.
  - split; [ discriminate | ]. intros [H _]. apply truthy_true in H. congruence.
Qed.

Lemma episode_topics_empty_witness :
  EPISODE_TOPICS (load_topics {[ "EPISODE_TOPICS" := " , ," ]}) = [].
Proof.
  apply (episode_topics_empty {[ "EPISODE_TOPICS" := " , ," ]}).
  - vm_compute; reflexivity.
  - split; [ by vm_compute | ].
    repeat apply Forall_cons_2; try apply Forall_nil_2;
      first [ by left | by right ].
Defined.

(** X17: a non-empty list of clean topics, joined by commas and put in
    the variable in any mix of upper and lower case, is read back as it
    is: same topics, same order, duplicates kept. *)
Theorem episode_topics_round_trip (env : Env) (ts : list string) :
  ts ≠ [] → Forall clean_topic ts →
  PyStr.lower (getenv env "EPISODE_TOPICS" EmptyString) = String.concat "," ts →
  EPISODE_TOPICS (load_topics env) = ts.
Proof.
  intros Hne Hts Henv. unfold load_topics.
  rewrite select_topics_topics, <- truthy_lower, Henv.
  rewrite parse_topics_concat by done.
  destruct ts as [| t ts']; [ done | ].
  apply Forall_cons in Hts as [(Ht & _) _].
  destruct t; [ done | ]. by destruct ts'.
Qed.

Lemma episode_topics_round_trip_witness :
  EPISODE_TOPICS (load_topics {[ "EPISODE_TOPICS" := "AI,Quantum Computing,ai" ]})
  = ["ai"; "quantum computing"; "ai"].
Proof.
  apply (episode_topics_round_trip _ ["ai"; "quantum computing"; "ai"]).
  - done.
  - repeat apply Forall_cons_2; try apply Forall_nil_2;
      unfold clean_topic; split_conj; first [ done | by_evaluation ].
  - vm_compute; reflexivity.
Defined.
